(** * The e-mail channel of the notification delivery pipeline

    A shallow embedding of [SendMessageEmail] (worker,
    [workflow.worker.ts]) together with the two exported helpers
    [createMailData] and [getReplyToAddress], and of the part of
    [BaseRepository] the pipeline calls ([create], [update], [findOne]).

    JavaScript values are embedded by a small universe ([Js.Prim],
    [Js.Any]); objects used as dictionaries are finite maps keyed by
    strings; strings are byte strings holding UTF-8.  Effects are
    threaded through a state-and-exception monad whose state records the
    message collection, the repository calls, the audit trail and the
    calls made to collaborators.

    The command is taken as [SendMessageCommand] types it: [overrides],
    [payload] and [job] are objects.  What the payload holds is user
    data: its [attachments] are read through a cast and are modelled
    with the values that make the read raise. *)

From stdpp Require Import gmap strings list fin_maps pretty.

Local Open Scope string_scope.
Local Open Scope list_scope.

(** ** JavaScript values *)

Module Js.

(** Primitive values. *)
Inductive Prim :=
| PUndefined
| PNull
| PBool (b : bool)
| PNum (z : Z)
| PStr (s : string).

#[global] Instance Prim_eq_dec : EqDecision Prim.
Proof. solve_decision. Defined.

(** One layer of structure over a type of components: a primitive, an
    array, or an object. *)
Inductive Val (A : Type) :=
| VPrim (p : Prim)
| VArr (l : list A)
| VObj (o : gmap string A).
Arguments VPrim {A} p.
Arguments VArr {A} l.
Arguments VObj {A} o.

(** The values held in an override map or a payload ([any]): primitives,
    arrays of primitives, flat objects. *)
Abbreviation Any := (Val Prim).

(** The values held in [command.overrides]: override maps themselves. *)
Abbreviation Any2 := (Val (Val Prim)).

Definition undefined {A} : Val A := VPrim PUndefined.
Definition str {A} (s : string) : Val A := VPrim (PStr s).
Definition ostr {A} (o : option string) : Val A :=
  match o with Some s => str s | None => undefined end.

(** [ToBoolean]. *)
Definition truthyP (p : Prim) : bool :=
  match p with
  | PUndefined | PNull => false
  | PBool b => b
  | PNum z => negb (Z.eqb z 0)
  | PStr s => negb (String.eqb s "")
  end.

Definition truthy {A} (v : Val A) : bool :=
  match v with
  | VPrim p => truthyP p
  | VArr _ | VObj _ => true
  end.

(** [a || b]. *)
Definition or {A} (a b : Val A) : Val A := if truthy a then a else b.
Definition orP (a b : Prim) : Prim := if truthyP a then a else b.

(** [o.k] on a dictionary: a missing key reads as [undefined]. *)
Definition get {A} (o : gmap string (Val A)) (k : string) : Val A :=
  match o !! k with
  | Some v => v
  | None => undefined
  end.

(** [v?.k] on a value of [command.overrides]: only objects carry the
    keys read by the pipeline. *)
Definition prop (v : Any2) (k : string) : Any :=
  match v with
  | VObj o => get o k
  | _ => undefined
  end.

(** A byte [10xxxxxx] continues the character begun before it. *)
Definition continues (c : Ascii.ascii) : bool :=
  match c with
  | Ascii.Ascii _ _ _ _ _ _ b6 b7 => b7 && negb b6
  end.

(** The string begins with a continuation byte. *)
Definition continued (s : string) : bool :=
  match s with
  | String c _ => continues c
  | EmptyString => false
  end.

(** The code points of a string, each as a string: what the string
    iterator yields.  A byte begins a code point, the continuation bytes
    after it belong to it. *)
Fixpoint codePoints (s : string) : list string :=
  match s with
  | EmptyString => []
  | String c s' =>
      match codePoints s' with
      | g :: gs =>
          if continued s' then String c g :: gs else String c EmptyString :: g :: gs
      | [] => [String c EmptyString]
      end
  end.

(** The UTF-16 code units of a code point, each as a string: the code
    point itself, or, for a code point outside the Basic Multilingual
    Plane (four bytes), its two surrogates, each in the three-byte
    form. *)
Definition codeUnitsOf (g : string) : list string :=
  match g with
  | String b0 (String b1 (String b2 (String b3 EmptyString))) =>
      let n a := Ascii.N_of_ascii a in
      let cp := ((n b0 mod 8) * 262144 + (n b1 mod 64) * 4096
                 + (n b2 mod 64) * 64 + n b3 mod 64)%N in
      let v := (cp - 65536)%N in
      let unit u :=
        String (Ascii.ascii_of_N (224 + u / 4096))
          (String (Ascii.ascii_of_N (128 + (u / 64) mod 64))
             (String (Ascii.ascii_of_N (128 + u mod 64)) EmptyString)) in
      [unit (55296 + v / 1024)%N; unit (56320 + v mod 1024)%N]
  | _ => [g]
  end.

(** The indexed characters of a string: its UTF-16 code units. *)
Definition codeUnits (s : string) : list string :=
  codePoints s ≫= codeUnitsOf.

(** The own enumerable properties of a value used as a source of
    [Object.assign]: the entries of an object, the indexed elements of
    an array or of a string, nothing for the other primitives. *)
Definition indexed {A} (l : list A) : gmap string A :=
  list_to_map (imap (λ i x, (pretty i, x)) l).

Definition ownProps (v : Any2) : gmap string Any :=
  match v with
  | VObj o => o
  | VArr l => indexed l
  | VPrim (PStr s) => indexed (str <$> codeUnits s)
  | VPrim _ => ∅
  end.

(** [Object.assign(target, ...sources)]: every own property of every
    source, in order, is written to the target. *)
Definition assign1 (target : gmap string Any) (source : Any2) : gmap string Any :=
  map_fold (λ k v acc, <[k := v]> acc) target (ownProps source).

Definition Object_assign (target : gmap string Any) (sources : list Any2)
  : gmap string Any :=
  foldl assign1 target sources.

(** [[...v]] for a value of an override map: arrays and strings are
    iterable, a string by code points; anything else is a [TypeError]
    ([None]). *)
Definition spread (v : Any) : option (list Prim) :=
  match v with
  | VArr l => Some l
  | VPrim (PStr s) => Some (PStr <$> codePoints s)
  | _ => None
  end.

(** [p.length > 0] on a primitive: only strings have a length. *)
Definition lengthPositive (p : Prim) : bool :=
  match p with
  | PStr s => negb (Nat.eqb (String.length s) 0)
  | _ => false
  end.

(** Truthiness of an optional string and of an optional boolean. *)
Definition truthyS (o : option string) : bool :=
  match o with Some s => truthyP (PStr s) | None => false end.
Definition truthyB (o : option bool) : bool :=
  match o with Some b => b | None => false end.

End Js.

Import Js.

(** ** Exceptions and completions *)

Inductive Exn :=
| PlatformException (message : string)
| TypeError (message : string)
| ExternalError (message : string).

Inductive Completion (A : Type) :=
| Normal (a : A)
| Throw (e : Exn).
Arguments Normal {A} a.
Arguments Throw {A} e.

(** ** The uniform provider message *)

Record IAttachmentOptions := {
  att_file : string;
  att_mime : string;
  att_name : option string;
  att_channels : option (list string);
}.

Record NotificationDetails := {
  nd_transactionId : string;
  nd_workflowIdentifier : string;
  nd_subscriberId : string;
}.

(** [to] is declared [string | string[]]. *)
Inductive Recipients :=
| ToOne (p : Prim)
| ToMany (l : list Prim).

Section MailData.

(** The type of [payloadDetails], fixed further down. *)
Context {Details : Type}.

Record IEmailOptions := {
  to : Recipients;
  subject : string;
  html : string;
  from : Any;
  text : Any;
  cc : Any;
  bcc : Any;
  attachments : option (list IAttachmentOptions);
  id : option string;
  replyTo : Any;
  notificationDetails : option NotificationDetails;
  ipPoolName : Any;
  customData : Any;
  payloadDetails : option Details;
}.

(** [prev.includes(current) ? prev : [...prev, current]] *)
Definition filterDuplicate (prev : list Prim) (current : Prim) : list Prim :=
  if bool_decide (current ∈ prev) then prev else prev ++ [current].

(** [Array.isArray(options.to) ? options.to : [options.to]] *)
Definition baseRecipients (options : IEmailOptions) : list Prim :=
  match to options with
  | ToMany l => l
  | ToOne p => [p]
  end.

Definition createMailData (options : IEmailOptions) (overrides : gmap string Any)
  : Completion IEmailOptions :=
  let to0 := baseRecipients options in
  match spread (Js.or (get overrides "to") (VArr [])) with
  | None => Throw (TypeError "overrides.to is not iterable")
  | Some extra =>
      let to1 := to0 ++ extra in
      let to2 := foldl filterDuplicate [] to1 in
      let ipPool :=
        if truthy (get overrides "ipPoolName")
        then get overrides "ipPoolName" else ipPoolName options in
      Normal {|
        to := ToMany to2;
        subject := subject options;
        html := html options;
        from := Js.or (get overrides "from") (from options);
        text := get overrides "text";
        cc := Js.or (get overrides "cc") (VArr []);
        bcc := Js.or (get overrides "bcc") (VArr []);
        attachments := attachments options;
        id := id options;
        replyTo := replyTo options;
        notificationDetails := notificationDetails options;
        ipPoolName := ipPool;
        customData := Js.or (get overrides "customData") (VObj ∅);
        payloadDetails := payloadDetails options;
      |}
  end.

End MailData.

Arguments IEmailOptions : clear implicits.

(** ** Reply-to address *)

Definition getReplyToAddress (transactionId environmentId inboundParseDomain : string)
  : string :=
  let userNamePrefix := "parse" in
  let userNameDelimiter := "-nv-e=" in
  userNamePrefix +:+ "+" +:+ transactionId +:+ userNameDelimiter +:+ environmentId
    +:+ "@" +:+ inboundParseDomain.


(** ** Entities read or written by the pipeline

    The entity declarations live in the data-access package; the records
    below carry the fields [SendMessageEmail] reads or writes. *)

Record SubscriberEntity := {
  s__id : string;
  s_subscriberId : string;
  s__environmentId : string;
  s_email : Prim;
}.

Record Credentials := {
  cr_from : Prim;
  cr_senderName : Prim;
}.

Record IntegrationEntity := {
  i__id : string;
  i_identifier : string;
  i_providerId : string;
  i_credentials : Credentials;
}.

Record MessageTemplateEntity := {
  t__id : string;
  t_senderName : Prim;
  t_subject : Prim;
  t_preheader : Prim;
  t_content : string;
  t__layoutId : option string;
  t_contentType : Prim;
}.

Record ReplyCallback := {
  rc_active : Prim;
  rc_url : Prim;
}.

Record NotificationStepEntity := {
  st_template : option MessageTemplateEntity;
  st_replyCallback : option ReplyCallback;
}.

Record TenantEntity := {
  tn_identifier : string;
}.

Record JobEntity := {
  j__id : string;
  j_tenant : option TenantEntity;
  j_actorId : option string;
}.

Record Dns := {
  dns_mxRecordConfigured : option bool;
  dns_inboundParseDomain : option string;
}.

Record EnvironmentEntity := {
  e__id : string;
  e_dns : option Dns;
}.

Record LayoutEntity := {
  l__id : string;
}.

(** [payload.attachments], user data read through a cast to
    [IAttachmentOptions[]]: nothing ([undefined] or [null]), an array of
    attachments, or any other value.  The payload being data, a value
    that is not an array has no [map] to call. *)
Inductive Attachments :=
| NoAttachments
| AttachmentArray (l : list IAttachmentOptions)
| NotAnArray.

(** [command.payload]: the e-mail address, a primitive, and the
    attachments are the two keys the pipeline reads. *)
Record Payload := {
  pl_email : Prim;
  pl_attachments : Attachments;
  pl_data : gmap string Any;
}.

Record SendMessageCommand := {
  c_subscriberId : string;
  c_environmentId : string;
  c_organizationId : string;
  c_userId : string;
  c_overrides : gmap string Any2;
  c_job : JobEntity;
  c_step : option NotificationStepEntity;
  c_payload : Payload;
  c_events : option (list Any);
  c_notificationId : string;
  c__subscriberId : string;
  c__templateId : string;
  c_transactionId : string;
  c_identifier : string;
  c_jobId : string;
}.

Inductive ChannelTypeEnum := IN_APP | EMAIL | SMS | CHAT | PUSH.

Record MessageEntity := {
  m__id : string;
  m__notificationId : string;
  m__environmentId : string;
  m__organizationId : string;
  m__subscriberId : string;
  m__templateId : string;
  m__messageTemplateId : string;
  m_subject : Prim;
  m_content : Prim;
  m_channel : ChannelTypeEnum;
  m_transactionId : string;
  m_email : Prim;
  m_providerId : string;
  m_payload : Payload;
  m_overrides : gmap string Any;
  m_templateIdentifier : string;
  m__jobId : string;
  m_identifier : Prim;
}.

(** ** The compile request *)

Record StepInfo := {
  si_digest : bool;
  si_events : option (list Any);
  si_total_count : option nat;
  si_reply_to_address : option string;
}.

Record InnerPayload := {
  ip_payload : Payload;
  ip_step : StepInfo;
  ip_tenant : option TenantEntity;
  ip_actor : option SubscriberEntity;
  ip_subscriber : SubscriberEntity;
}.

Record CompilePayload := {
  cp_senderName : Prim;
  cp_subject : Prim;
  cp_preheader : Prim;
  cp_content : string;
  cp_layoutId : option string;
  cp_contentType : Prim;
  cp_payload : InnerPayload;
}.

Record CompileEmailTemplateCommand := {
  cc_environmentId : string;
  cc_organizationId : string;
  cc_userId : string;
  cc_payload : CompilePayload;
}.

Record CompileResult := {
  r_html : string;
  r_content : string;
  r_subject : string;
  r_senderName : Prim;
}.

Record SendResult := {
  sr_id : Prim;
}.

Definition MailData := IEmailOptions CompilePayload.

(** ** The audit trail *)

Inductive ExecutionDetailsStatusEnum := SUCCESS | WARNING | FAILED | PENDING.

Inductive ExecutionDetailsSourceEnum := INTERNAL | CREDENTIALS | PAYLOAD | WEBHOOK.

Inductive DetailEnum :=
| LIMIT_PASSED_NOVU_INTEGRATION
| SUBSCRIBER_NO_ACTIVE_INTEGRATION
| MESSAGE_CREATED
| MESSAGE_SENT
| PROVIDER_ERROR
| SUBSCRIBER_NO_CHANNEL_DETAILS
| LAYOUT_NOT_FOUND
| REPLY_CALLBACK_MISSING_REPLAY_CALLBACK_URL
| REPLY_CALLBACK_NOT_CONFIGURATION
| REPLY_CALLBACK_MISSING_MX_RECORD_CONFIGURATION
| REPLY_CALLBACK_MISSING_MX_ROUTE_DOMAIN_CONFIGURATION.

#[global] Instance Status_eq_dec : EqDecision ExecutionDetailsStatusEnum.
Proof. solve_decision. Defined.

#[global] Instance Detail_eq_dec : EqDecision DetailEnum.
Proof. solve_decision. Defined.

(** The argument of [JSON.stringify] in the [raw] field of an entry. *)
Inductive Raw :=
| RawMessage (message : string)
| RawIntegrationIdentifier (identifier : Any)
| RawLayoutIdentifier (identifier : Any2)
| RawPayload (payload : CompilePayload)
| RawResult (result : option SendResult)
| RawError (error : Exn).

(** The fields each call site writes after the two spreads ([...metadata]
    and [...getDetailsFromJob(job)]); being written last, they are the
    ones the entry ends up with. *)
Record ExecutionDetail := {
  d_job : JobEntity;
  d_messageId : option string;
  d_detail : DetailEnum;
  d_source : ExecutionDetailsSourceEnum;
  d_status : ExecutionDetailsStatusEnum;
  d_isTest : bool;
  d_isRetry : bool;
  d_raw : option Raw;
}.

(** ** Repository calls and collaborator calls *)

Record MessageQuery := {
  q__id : string;
  q__environmentId : string;
}.

(** A [$set] body: field names and new values. *)
Definition UpdateBody := list (string * Prim).

Inductive RepoCall :=
| RepoCreate (data : MessageEntity)
| RepoUpdate (query : MessageQuery) (body : UpdateBody)
| RepoDelete (query : MessageQuery).

Inductive LogCodeEnum :=
| SUBSCRIBER_MISSING_EMAIL
| MISSING_EMAIL_INTEGRATION
| MAIL_PROVIDER_DELIVERY_ERROR.

(** Calls into the base class [SendMessageBase], to the template compiler
    and to the provider: what they do inside is outside this file, the
    call and its arguments are recorded. *)
Inductive Call :=
| HandleTenantExecution (job : JobEntity)
| SendSelectedIntegrationExecution (job : JobEntity) (integration : IntegrationEntity)
| SendErrorStatus (message : MessageEntity) (status errorId text : string)
    (logCode : LogCodeEnum) (error : option Exn)
| SendErrorHandlebars (job : JobEntity) (message : string)
| Compile (command : CompileEmailTemplateCommand)
| ProviderSend (integration : IntegrationEntity) (mailFrom : Any) (mail : MailData).

(** What a run leaves behind, in the order it happened: audit entries,
    repository calls on the message collection, calls to collaborators. *)
Inductive Event :=
| EvAudit (entry : ExecutionDetail)
| EvRepo (c : RepoCall)
| EvCall (c : Call).

Definition audits (t : list Event) : list ExecutionDetail :=
  omap (λ e, match e with EvAudit d => Some d | _ => None end) t.

Definition repoCalls (t : list Event) : list RepoCall :=
  omap (λ e, match e with EvRepo c => Some c | _ => None end) t.

(** The message collection. *)
Abbreviation Store := (list MessageEntity).

(** A run: how it completed, the collection it left, the events it
    produced. *)
Record Run (A : Type) := {
  outcome : Completion A;
  store : Store;
  trace : list Event;
}.
Arguments outcome {A} r.
Arguments store {A} r.
Arguments trace {A} r.
Arguments Build_Run {A} outcome store trace.

(** ** The monad of the pipeline: state and exceptions *)

Definition M (A : Type) : Type := Store → Run A.

#[global] Instance M_ret : MRet M := λ A a s,
  {| outcome := Normal a; store := s; trace := [] |}.

(** The events [t] happened before the run [r]. *)
Definition prepend {A} (t : list Event) (r : Run A) : Run A :=
  match r with
  | Build_Run o s t' => Build_Run o s (t ++ t')
  end.

#[global] Instance M_bind : MBind M := λ A B f m s,
  match m s with
  | Build_Run (Normal a) s' t => prepend t (f a s')
  | Build_Run (Throw e) s' t => Build_Run (Throw e) s' t
  end.

Definition throw {A} (e : Exn) : M A := λ s,
  {| outcome := Throw e; store := s; trace := [] |}.

(** [try { m } catch (e) { h e }] *)
Definition try_catch {A} (m : M A) (h : Exn → M A) : M A := λ s,
  match m s with
  | Build_Run (Normal a) s' t => Build_Run (Normal a) s' t
  | Build_Run (Throw e) s' t => prepend t (h e s')
  end.

(** The outcome of a call to a collaborator that does not touch the
    message collection. *)
Definition lift {A} (c : Completion A) : M A := λ s,
  {| outcome := c; store := s; trace := [] |}.

Definition emit (e : Event) : M unit := λ s,
  {| outcome := Normal tt; store := s; trace := [e] |}.

Definition message_of (e : Exn) : string :=
  match e with
  | PlatformException m | TypeError m | ExternalError m => m
  end.

(** [executionLogQueueService.add]: the entry joins the audit trail. *)
Definition executionLogQueueService_add (entry : ExecutionDetail) : M unit :=
  emit (EvAudit entry).

Definition call (c : Call) : M unit := emit (EvCall c).

(** ** [BaseRepository], at the message collection *)

Module BaseRepository.

(** [mapEntity] is a JSON round trip. *)
Definition mapEntity {E} (data : E) : E := data.

(** [findOne]: [null] when the model finds nothing. *)
Definition findOne {Q E} (model_findOne : Q → option E) (query : Q) : M (option E) :=
  match model_findOne query with
  | None => mret None
  | Some data => mret (Some (mapEntity data))
  end.

Definition withId (_id : string) (m : MessageEntity) : MessageEntity :=
  {| m__id := _id;
     m__notificationId := m__notificationId m;
     m__environmentId := m__environmentId m;
     m__organizationId := m__organizationId m;
     m__subscriberId := m__subscriberId m;
     m__templateId := m__templateId m;
     m__messageTemplateId := m__messageTemplateId m;
     m_subject := m_subject m;
     m_content := m_content m;
     m_channel := m_channel m;
     m_transactionId := m_transactionId m;
     m_email := m_email m;
     m_providerId := m_providerId m;
     m_payload := m_payload m;
     m_overrides := m_overrides m;
     m_templateIdentifier := m_templateIdentifier m;
     m__jobId := m__jobId m;
     m_identifier := m_identifier m |}.

(** [create]: the document is saved under a new [_id] ([newObjectId], the
    identifier the driver generates) and mapped back.  The [expireAt]
    stamp of [calcExpireDate] is a date and is left out of the record. *)
Definition create (newObjectId : nat → string) (data : MessageEntity)
  : M MessageEntity := λ s,
  let saved := withId (newObjectId (length s)) data in
  {| outcome := Normal (mapEntity saved);
     store := s ++ [saved];
     trace := [EvRepo (RepoCreate saved)] |}.

(** One assignment of a [$set] body, for the fields that hold a
    primitive.  The pipeline only ever sets [subject], [content] and
    [identifier]. *)
Definition setField (m : MessageEntity) (kv : string * Prim) : MessageEntity :=
  let '(k, v) := kv in
  {| m__id := m__id m;
     m__notificationId := m__notificationId m;
     m__environmentId := m__environmentId m;
     m__organizationId := m__organizationId m;
     m__subscriberId := m__subscriberId m;
     m__templateId := m__templateId m;
     m__messageTemplateId := m__messageTemplateId m;
     m_subject := if String.eqb k "subject" then v else m_subject m;
     m_content := if String.eqb k "content" then v else m_content m;
     m_channel := m_channel m;
     m_transactionId := m_transactionId m;
     m_email := if String.eqb k "email" then v else m_email m;
     m_providerId := m_providerId m;
     m_payload := m_payload m;
     m_overrides := m_overrides m;
     m_templateIdentifier := m_templateIdentifier m;
     m__jobId := m__jobId m;
     m_identifier := if String.eqb k "identifier" then v else m_identifier m |}.

Definition matches (query : MessageQuery) (m : MessageEntity) : bool :=
  String.eqb (m__id m) (q__id query)
  && String.eqb (m__environmentId m) (q__environmentId query).

(** [update] is [updateMany(query, { $set: body })]. *)
Definition updateMany (query : MessageQuery) (body : UpdateBody)
  (docs : list MessageEntity) : list MessageEntity :=
  (λ m, if matches query m then foldl setField m body else m) <$> docs.

Definition update (query : MessageQuery) (body : UpdateBody) : M unit := λ s,
  {| outcome := Normal tt;
     store := updateMany query body s;
     trace := [EvRepo (RepoUpdate query body)] |}.

(** [delete] is [deleteMany(query)]. *)
Definition delete (query : MessageQuery) : M unit := λ s,
  {| outcome := Normal tt;
     store := filter (λ m, matches query m = false) s;
     trace := [EvRepo (RepoDelete query)] |}.

End BaseRepository.

(** ** Collaborators

    What the pipeline is handed by its constructor or inherits from
    [SendMessageBase], whose code is not in this file: each is taken as a
    parameter.  A collaborator that answers a question is a function; one
    that may fail answers with a [Completion]. *)

Record IntegrationQuery := {
  iq_organizationId : string;
  iq_environmentId : string;
  iq_channelType : ChannelTypeEnum;
  iq_userId : string;
  iq_identifier : Any;
  iq_tenant : option TenantEntity;
}.

Record LayoutQuery := {
  lq__environmentId : string;
  lq_identifier : Any2;
}.

(** A mail handler, by its [send]. *)
Definition MailHandler := MailData → Completion (option SendResult).

Record Collaborators := {
  (** [SendMessageBase.getSubscriberBySubscriberId] *)
  getSubscriberBySubscriberId : string → string → option SubscriberEntity;
  (** [SendMessageBase.getIntegration]: an integration, none, or a failure *)
  getIntegration : IntegrationQuery → Completion (option IntegrationEntity);
  (** what [SendMessageBase.handleTenantExecution] resolves to *)
  tenantOfJob : JobEntity → option TenantEntity;
  (** [SendMessageBase.storeContent] *)
  storeContent : bool;
  (** [CompileEmailTemplate.execute] *)
  compileEmailTemplate : CompileEmailTemplateCommand → Completion CompileResult;
  (** the [inline-css] package *)
  inlineCss : string → Completion string;
  (** [MailFactory.getHandler]: the handler for an integration and a
      sender, or a failure when the factory has none *)
  MailFactory_getHandler : IntegrationEntity → Any → Completion MailHandler;
  (** the layout and environment collections *)
  Layout_findOne : LayoutQuery → option LayoutEntity;
  Environment_findOne : string → option EnvironmentEntity;
  (** the identifier given to the [n]-th saved message *)
  newObjectId : nat → string;
  (** [EmailProviderIdEnum.EmailWebhook] *)
  EmailWebhook : string;
}.

(** ** [SendMessageEmail] *)

Section SendMessageEmail.

Context (co : Collaborators).

Definition detail (job : JobEntity) (messageId : option string) (d : DetailEnum)
  (st : ExecutionDetailsStatusEnum) (raw : option Raw) : ExecutionDetail :=
  {| d_job := job; d_messageId := messageId; d_detail := d; d_source := INTERNAL;
     d_status := st; d_isTest := false; d_isRetry := false; d_raw := raw |}.

(** The entries the pipeline writes. *)
Definition limitPassed (command : SendMessageCommand) (e : Exn) : ExecutionDetail :=
  detail (c_job command) None LIMIT_PASSED_NOVU_INTEGRATION FAILED
    (Some (RawMessage (message_of e))).

Definition noActiveIntegration (command : SendMessageCommand)
  (overrideSelectedIntegration : Any) : ExecutionDetail :=
  detail (c_job command) None SUBSCRIBER_NO_ACTIVE_INTEGRATION FAILED
    (if truthy overrideSelectedIntegration
     then Some (RawIntegrationIdentifier overrideSelectedIntegration)
     else None).

Definition layoutNotFound (command : SendMessageCommand) : ExecutionDetail :=
  detail (c_job command) None LAYOUT_NOT_FOUND FAILED
    (Some (RawLayoutIdentifier (get (c_overrides command) "layoutIdentifier"))).

Definition replyWarning (command : SendMessageCommand) (messageId : string)
  (code : DetailEnum) : ExecutionDetail :=
  detail (c_job command) (Some messageId) code WARNING None.

Definition missingAddress (command : SendMessageCommand) (message : MessageEntity)
  : ExecutionDetail :=
  detail (c_job command) (Some (m__id message)) SUBSCRIBER_NO_CHANNEL_DETAILS FAILED None.

Definition missingIntegration (command : SendMessageCommand) (message : MessageEntity)
  : ExecutionDetail :=
  detail (c_job command) (Some (m__id message)) SUBSCRIBER_NO_ACTIVE_INTEGRATION FAILED
    None.

Definition messageSent (command : SendMessageCommand) (message : MessageEntity)
  (result : option SendResult) : ExecutionDetail :=
  detail (c_job command) (Some (m__id message)) MESSAGE_SENT SUCCESS
    (Some (RawResult result)).

Definition providerError (command : SendMessageCommand) (message : MessageEntity)
  (error : Exn) : ExecutionDetail :=
  detail (c_job command) (Some (m__id message)) PROVIDER_ERROR FAILED
    (Some (RawError error)).

(** The four codes of an unmet reply-to precondition. *)
Definition replyCodes : list DetailEnum :=
  [REPLY_CALLBACK_MISSING_REPLAY_CALLBACK_URL;
   REPLY_CALLBACK_NOT_CONFIGURATION;
   REPLY_CALLBACK_MISSING_MX_RECORD_CONFIGURATION;
   REPLY_CALLBACK_MISSING_MX_ROUTE_DOMAIN_CONFIGURATION].

(** The [$set] body of the update that follows the compilation. *)
Definition contentBody (compiled : CompileResult) : UpdateBody :=
  [("subject", PStr (r_subject compiled)); ("content", PStr (r_content compiled))].

(** Modelled from the spec: [SendMessageBase.handleTenantExecution], whose
    code is not in the sources.  The spec has the tenant context resolved
    when the job references a tenant; the call is recorded and resolves to
    the tenant the collaborators give for the job. *)
Definition handleTenantExecution (job : JobEntity) : M (option TenantEntity) :=
  call (HandleTenantExecution job);;
  mret (tenantOfJob co job).

(** Modelled from the spec: [SendMessageBase.sendSelectedIntegrationExecution],
    whose code is not in the sources: the accounting side effect for the
    integration that was selected, a recorded call. *)
Definition sendSelectedIntegrationExecution (job : JobEntity)
  (integration : IntegrationEntity) : M unit :=
  call (SendSelectedIntegrationExecution job integration).

(** Modelled from the spec: [SendMessageBase.sendErrorStatus], whose code is
    not in the sources: the error report that goes with a terminal failure
    branch, a recorded call. *)
Definition sendErrorStatus (message : MessageEntity) (status errorId text : string)
  (command : SendMessageCommand) (logCode : LogCodeEnum) (error : option Exn) : M unit :=
  call (SendErrorStatus message status errorId text logCode error).

(** Modelled from the spec: [SendMessageBase.sendErrorHandlebars], whose
    code is not in the sources: the fallback path taken when the template
    does not compile, a recorded call. *)
Definition sendErrorHandlebars (job : JobEntity) (message : string) : M unit :=
  call (SendErrorHandlebars job message).

(** [getOverrideLayoutId] (lines 586-619). *)
Definition getOverrideLayoutId (command : SendMessageCommand) : M (option string) :=
  let overrideLayoutIdentifier := get (c_overrides command) "layoutIdentifier" in
  if truthy overrideLayoutIdentifier then
    layoutOverride ← BaseRepository.findOne (Layout_findOne co)
      {| lq__environmentId := c_environmentId command;
         lq_identifier := overrideLayoutIdentifier |};
    (match layoutOverride with
     | None =>
         executionLogQueueService_add (layoutNotFound command)
     | Some _ => mret tt
     end);;
    mret (l__id <$> layoutOverride)
  else mret None.

Definition replyCallback_url (command : SendMessageCommand) : Prim :=
  match c_step command with
  | Some step =>
      match st_replyCallback step with
      | Some rc => rc_url rc
      | None => PUndefined
      end
  | None => PUndefined
  end.

Definition replyCallback_active (command : SendMessageCommand) : Prim :=
  match c_step command with
  | Some step =>
      match st_replyCallback step with
      | Some rc => rc_active rc
      | None => PUndefined
      end
  | None => PUndefined
  end.

(** [getReplyTo] (lines 384-438). *)
Definition getReplyTo (command : SendMessageCommand) (messageId : string)
  : M (option string) :=
  if negb (truthyP (replyCallback_url command)) then
    executionLogQueueService_add
      (replyWarning command messageId REPLY_CALLBACK_MISSING_REPLAY_CALLBACK_URL);;
    mret None
  else
    environment ← BaseRepository.findOne (Environment_findOne co) (c_environmentId command);
    match environment with
    | None =>
        throw (PlatformException
                 ("Environment " +:+ c_environmentId command +:+ " is not found"))
    | Some environment =>
        let mxRecordConfigured := e_dns environment ≫= dns_mxRecordConfigured in
        let inboundParseDomain := e_dns environment ≫= dns_inboundParseDomain in
        if truthyB mxRecordConfigured && truthyS inboundParseDomain then
          mret (Some (getReplyToAddress (c_transactionId command) (e__id environment)
                        (default "" inboundParseDomain)))
        else
          let detailEnum :=
            if negb (truthyB mxRecordConfigured) && negb (truthyS inboundParseDomain)
            then REPLY_CALLBACK_NOT_CONFIGURATION
            else if negb (truthyB mxRecordConfigured)
            then REPLY_CALLBACK_MISSING_MX_RECORD_CONFIGURATION
            else REPLY_CALLBACK_MISSING_MX_ROUTE_DOMAIN_CONFIGURATION in
          executionLogQueueService_add (replyWarning command messageId detailEnum);;
          mret None
    end.

(** [sendErrors] (lines 440-506). *)
Definition sendErrors (email : Prim) (integration : option IntegrationEntity)
  (message : MessageEntity) (command : SendMessageCommand) : M unit :=
  let errorMessage := "Subscriber does not have an" in
  let status := "warning" in
  let errorId := "mail_unexpected_error" in
  if negb (truthyP email) then
    let mailErrorMessage := errorMessage +:+ " email address" in
    sendErrorStatus message status errorId mailErrorMessage command
      SUBSCRIBER_MISSING_EMAIL None;;
    executionLogQueueService_add (missingAddress command message)
  else
    match integration with
    | None =>
        let integrationError := errorMessage +:+ " active email integration not found" in
        sendErrorStatus message status errorId integrationError command
          MISSING_EMAIL_INTEGRATION None;;
        executionLogQueueService_add (missingIntegration command message)
    | Some _ => mret tt
    end.

(** [buildFactoryIntegration] (lines 621-630). *)
Definition buildFactoryIntegration (integration : IntegrationEntity) (senderName : Prim)
  : IntegrationEntity :=
  {| i__id := i__id integration;
     i_identifier := i_identifier integration;
     i_providerId := i_providerId integration;
     i_credentials :=
       {| cr_from := cr_from (i_credentials integration);
          cr_senderName :=
            if truthyP senderName && lengthPositive senderName
            then senderName else cr_senderName (i_credentials integration) |} |}.

(** The filter of both updates: [{ _id: message._id, _environmentId:
    command.environmentId }]. *)
Definition messageQuery (command : SendMessageCommand) (message : MessageEntity)
  : MessageQuery :=
  {| q__id := m__id message; q__environmentId := c_environmentId command |}.

(** [result?.id] *)
Definition result_id (result : option SendResult) : Prim :=
  match result with Some r => sr_id r | None => PUndefined end.

(** [sendMessage] (lines 508-584). *)
Definition sendMessage (integration : IntegrationEntity) (mailData : MailData)
  (message : MessageEntity) (command : SendMessageCommand) (senderName : Prim) : M unit :=
  let factoryIntegration := buildFactoryIntegration integration senderName in
  mailHandler ← lift (MailFactory_getHandler co factoryIntegration (from mailData));
  try_catch
    (call (ProviderSend factoryIntegration (from mailData) mailData);;
     result ← lift (mailHandler mailData);
     executionLogQueueService_add (messageSent command message result);;
     if negb (truthyP (result_id result)) then mret tt
     else
       BaseRepository.update (messageQuery command message)
         [("identifier", result_id result)])
    (λ error,
       sendErrorStatus message "error" "mail_unexpected_error"
         "Error while sending email with provider" command
         MAIL_PROVIDER_DELIVERY_ERROR (Some error);;
       executionLogQueueService_add (providerError command message error)).

(** The merge of the channel-scoped and the provider-scoped overrides
    (lines 222-226). *)
Definition mergeOverrides (command : SendMessageCommand)
  (integration : IntegrationEntity) : gmap string Any :=
  Object_assign ∅
    [Js.or (get (c_overrides command) "email") (VObj ∅);
     Js.or (get (c_overrides command) (i_providerId integration)) (VObj ∅)].

(** The compile request [payload] (lines 233-251). *)
Definition compilePayload (command : SendMessageCommand)
  (template : MessageTemplateEntity) (subscriber : SubscriberEntity)
  (tenant : option TenantEntity) (actor : option SubscriberEntity)
  (overrideLayoutId : option string) : CompilePayload :=
  {| cp_senderName := orP (t_senderName template) (PStr "");
     cp_subject := orP (t_subject template) (PStr "");
     cp_preheader := t_preheader template;
     cp_content := t_content template;
     cp_layoutId :=
       match overrideLayoutId with
       | Some layoutId => Some layoutId
       | None => t__layoutId template
       end;
     cp_contentType :=
       if truthyP (t_contentType template) then t_contentType template
       else PStr "editor";
     cp_payload :=
       {| ip_payload := c_payload command;
          ip_step :=
            {| si_digest :=
                 match c_events command with
                 | Some events => negb (Nat.eqb (length events) 0)
                 | None => false
                 end;
               si_events := c_events command;
               si_total_count := length <$> c_events command;
               si_reply_to_address := None |};
          ip_tenant := tenant;
          ip_actor := actor;
          ip_subscriber := subscriber |} |}.

(** [payload.payload.step.reply_to_address = replyTo] *)
Definition set_reply_to_address (payload : CompilePayload) (replyTo : string)
  : CompilePayload :=
  {| cp_senderName := cp_senderName payload;
     cp_subject := cp_subject payload;
     cp_preheader := cp_preheader payload;
     cp_content := cp_content payload;
     cp_layoutId := cp_layoutId payload;
     cp_contentType := cp_contentType payload;
     cp_payload :=
       {| ip_payload := ip_payload (cp_payload payload);
          ip_step :=
            {| si_digest := si_digest (ip_step (cp_payload payload));
               si_events := si_events (ip_step (cp_payload payload));
               si_total_count := si_total_count (ip_step (cp_payload payload));
               si_reply_to_address := Some replyTo |};
          ip_tenant := ip_tenant (cp_payload payload);
          ip_actor := ip_actor (cp_payload payload);
          ip_subscriber := ip_subscriber (cp_payload payload) |} |}.

(** [delete messagePayload.attachments] on a copy of the payload. *)
Definition delete_attachments (payload : Payload) : Payload :=
  {| pl_email := pl_email payload;
     pl_attachments := NoAttachments;
     pl_data := pl_data payload |}.

Definition copyAttachment (attachment : IAttachmentOptions) : IAttachmentOptions :=
  {| att_file := att_file attachment;
     att_mime := att_mime attachment;
     att_name := att_name attachment;
     att_channels := att_channels attachment |}.

(** [command.payload.attachments?.map(...)] (lines 340-348): nothing
    for a missing value, the copies for an array, a [TypeError] for any
    other value. *)
Definition mapAttachments (attachments : Attachments)
  : Completion (option (list IAttachmentOptions)) :=
  match attachments with
  | NoAttachments => Normal None
  | AttachmentArray l => Normal (Some (copyAttachment <$> l))
  | NotAnArray => Throw (TypeError "command.payload.attachments.map is not a function")
  end.

Definition set_replyTo (mailData : MailData) (v : Any) : MailData :=
  {| to := to mailData; subject := subject mailData; html := html mailData;
     from := from mailData; text := text mailData; cc := cc mailData;
     bcc := bcc mailData; attachments := attachments mailData; id := id mailData;
     replyTo := v;
     notificationDetails := notificationDetails mailData;
     ipPoolName := ipPoolName mailData; customData := customData mailData;
     payloadDetails := payloadDetails mailData |}.

Definition set_payloadDetails (mailData : MailData) (payload : CompilePayload)
  : MailData :=
  {| to := to mailData; subject := subject mailData; html := html mailData;
     from := from mailData; text := text mailData; cc := cc mailData;
     bcc := bcc mailData; attachments := attachments mailData; id := id mailData;
     replyTo := replyTo mailData;
     notificationDetails := notificationDetails mailData;
     ipPoolName := ipPoolName mailData; customData := customData mailData;
     payloadDetails := Some payload |}.

(** The record handed to [messageRepository.create] (lines 256-272). *)
Definition newMessage (command : SendMessageCommand)
  (template : MessageTemplateEntity) (integration : IntegrationEntity)
  (email : Prim) (overrides : gmap string Any) : MessageEntity :=
  {| m__id := "";
     m__notificationId := c_notificationId command;
     m__environmentId := c_environmentId command;
     m__organizationId := c_organizationId command;
     m__subscriberId := c__subscriberId command;
     m__templateId := c__templateId command;
     m__messageTemplateId := t__id template;
     m_subject := PStr "";
     m_content := PUndefined;
     m_channel := EMAIL;
     m_transactionId := c_transactionId command;
     m_email := email;
     m_providerId := i_providerId integration;
     m_payload := delete_attachments (c_payload command);
     m_overrides := overrides;
     m_templateIdentifier := c_identifier command;
     m__jobId := c_jobId command;
     m_identifier := PUndefined |}.

(** The base options handed to [createMailData] (lines 350-366). *)
Definition baseMailData (command : SendMessageCommand)
  (subscriber : SubscriberEntity) (integration : IntegrationEntity)
  (message : MessageEntity) (email : Prim) (subject html : string)
  (attachments : option (list IAttachmentOptions))
  (replyToAddress : option string) : MailData :=
  {| to := ToOne email;
     subject := subject;
     html := html;
     from := VPrim (orP (cr_from (i_credentials integration)) (PStr "no-reply@novu.co"));
     text := undefined;
     cc := undefined;
     bcc := undefined;
     attachments := attachments;
     id := Some (m__id message);
     replyTo := ostr replyToAddress;
     notificationDetails :=
       Some {| nd_transactionId := c_transactionId command;
               nd_workflowIdentifier := c_identifier command;
               nd_subscriberId := s_subscriberId subscriber |};
     ipPoolName := undefined;
     customData := undefined;
     payloadDetails := None |}.

(** The argument of [CompileEmailTemplateCommand.create] (lines 289-294). *)
Definition compileCommand (command : SendMessageCommand) (payload : CompilePayload)
  : CompileEmailTemplateCommand :=
  {| cc_environmentId := c_environmentId command;
     cc_organizationId := c_organizationId command;
     cc_userId := c_userId command;
     cc_payload := payload |}.

(** The record [messageRepository.create] saves when the collection holds
    [s]. *)
Definition preparedMessage (command : SendMessageCommand)
  (integration : IntegrationEntity) (template : MessageTemplateEntity)
  (email : Prim) (s : Store) : MessageEntity :=
  BaseRepository.withId (newObjectId co (length s))
    (newMessage command template integration email (mergeOverrides command integration)).

(** [execute], the reply-to address (lines 274-285): the address, if one
    is derived, and the compile request carrying it. *)
Definition execute_replyTo (command : SendMessageCommand) (message : MessageEntity)
  (payload : CompilePayload) : M (option string * CompilePayload) :=
  if truthyP (replyCallback_active command) then
    replyTo ← getReplyTo command (m__id message);
    if truthyS replyTo
    then mret (replyTo, set_reply_to_address payload (default "" replyTo))
    else mret (None, payload)
  else mret (None, payload).

(** The two assignments to [mailData] after [createMailData]
    (lines 368-374). *)
Definition overrideMailData (command : SendMessageCommand)
  (integration : IntegrationEntity) (payload : CompilePayload) (mailData : MailData)
  : MailData :=
  let mailData :=
    if truthy (prop (get (c_overrides command) "email") "replyTo")
    then set_replyTo mailData (prop (get (c_overrides command) "email") "replyTo")
    else mailData in
  if String.eqb (i_providerId integration) (EmailWebhook co)
  then set_payloadDetails mailData payload
  else mailData.

(** The [PENDING] entry written once the template is compiled
    (lines 323-338). *)
Definition messageCreated (command : SendMessageCommand) (message : MessageEntity)
  (payload : CompilePayload) : ExecutionDetail :=
  detail (c_job command) (Some (m__id message)) MESSAGE_CREATED PENDING
    (if storeContent co then Some (RawPayload payload) else None).

(** [execute], from the compilation on (lines 287-382). *)
Definition execute_dispatch (command : SendMessageCommand)
  (subscriber : SubscriberEntity) (integration : IntegrationEntity)
  (email : Prim) (overrides : gmap string Any) (message : MessageEntity)
  (replyToAddress : option string) (payload : CompilePayload) : M unit :=
  compiled ← try_catch
    (call (Compile (compileCommand command payload));;
     r ← lift (compileEmailTemplate co (compileCommand command payload));
     (if storeContent co then
        BaseRepository.update (messageQuery command message) (contentBody r)
      else mret tt);;
     html ← lift (inlineCss co (r_html r));
     mret (Some (html, r)))
    (λ e, sendErrorHandlebars (c_job command) (message_of e);; mret None);
  match compiled with
  | None => mret tt
  | Some (html, r) =>
      executionLogQueueService_add (messageCreated command message payload);;
      attachments ← lift (mapAttachments (pl_attachments (c_payload command)));
      mailData ← lift (createMailData
        (baseMailData command subscriber integration message email (r_subject r) html
           attachments replyToAddress)
        overrides);
      let mailData := overrideMailData command integration payload mailData in
      if truthyP email then
        sendMessage integration mailData message command (r_senderName r)
      else
        sendErrors email (Some integration) message command
  end.

(** [execute], from the actor lookup to the creation of the Message
    record (lines 208-272): an integration has been selected and the step
    has a template.  Hands on the record, the merged overrides and the
    compile request. *)
Definition execute_prepare (command : SendMessageCommand)
  (subscriber : SubscriberEntity) (integration : IntegrationEntity)
  (template : MessageTemplateEntity) (email : Prim)
  : M (MessageEntity * gmap string Any * CompilePayload) :=
  let actor :=
    if truthyS (j_actorId (c_job command)) then
      getSubscriberBySubscriberId co (default "" (j_actorId (c_job command)))
        (c_environmentId command)
    else None in
  (* Promise.all: the three are called in the order handleTenantExecution,
     getOverrideLayoutId, sendSelectedIntegrationExecution.  A call runs
     up to its first await: getOverrideLayoutId stops at the layout
     lookup, before it has written anything, so both helpers have been
     called when it resumes and writes its entry.  What the helpers do
     after they are called is not modelled. *)
  tenant ← handleTenantExecution (c_job command);
  sendSelectedIntegrationExecution (c_job command) integration;;
  overrideLayoutId ← getOverrideLayoutId command;
  let overrides := mergeOverrides command integration in
  let payload := compilePayload command template subscriber tenant actor overrideLayoutId in
  message ← BaseRepository.create (newObjectId co)
    (newMessage command template integration email overrides);
  mret (message, overrides, payload).

(** [execute], lines 208-382. *)
Definition execute_deliver (command : SendMessageCommand)
  (subscriber : SubscriberEntity) (integration : IntegrationEntity)
  (template : MessageTemplateEntity) (email : Prim) : M unit :=
  '(message, overrides, payload) ←
    execute_prepare command subscriber integration template email;
  '(replyToAddress, payload) ← execute_replyTo command message payload;
  execute_dispatch command subscriber integration email overrides message
    replyToAddress payload.

(** The argument of [getIntegration] (lines 142-151). *)
Definition integrationQuery (command : SendMessageCommand) : IntegrationQuery :=
  {| iq_organizationId := c_organizationId command;
     iq_environmentId := c_environmentId command;
     iq_channelType := EMAIL;
     iq_userId := c_userId command;
     iq_identifier := prop (get (c_overrides command) "email") "integrationIdentifier";
     iq_tenant := j_tenant (c_job command) |}.

(** [execute] (lines 131-382). *)
Definition execute (command : SendMessageCommand) : M unit :=
  match getSubscriberBySubscriberId co (c_subscriberId command) (c_environmentId command) with
  | None =>
      throw (PlatformException ("Subscriber " +:+ c_subscriberId command +:+ " not found"))
  | Some subscriber =>
      let overrideSelectedIntegration :=
        prop (get (c_overrides command) "email") "integrationIdentifier" in
      match getIntegration co (integrationQuery command) with
      | Throw e => executionLogQueueService_add (limitPassed command e)
      | Normal integration =>
          match c_step command with
          | None => throw (PlatformException "Email channel step not found")
          | Some emailChannel =>
              match st_template emailChannel with
              | None => throw (PlatformException "Email channel template not found")
              | Some template =>
                  let email := orP (pl_email (c_payload command)) (s_email subscriber) in
                  match integration with
                  | None =>
                      executionLogQueueService_add
                        (noActiveIntegration command overrideSelectedIntegration)
                  | Some integration =>
                      execute_deliver command subscriber integration template email
                  end
              end
          end
      end
  end.

End SendMessageEmail.

(** ** Recipients without duplicates, as the specification words it

    Duplicates removed, first-seen order preserved: an address is kept at
    its first occurrence and dropped at every later one. *)

Fixpoint dedup_from (seen l : list Prim) : list Prim :=
  match l with
  | [] => []
  | x :: l' =>
      if bool_decide (x ∈ seen) then dedup_from seen l'
      else x :: dedup_from (x :: seen) l'
  end.

Definition dedup_first_seen (l : list Prim) : list Prim := dedup_from [] l.

(** ** Reading a trace *)

Definition withDetail (code : DetailEnum) (l : list ExecutionDetail)
  : list ExecutionDetail :=
  filter (λ d, d_detail d = code) l.

Definition withStatus (status : ExecutionDetailsStatusEnum) (l : list ExecutionDetail)
  : list ExecutionDetail :=
  filter (λ d, d_status d = status) l.

Definition repoUpdates (l : list RepoCall) : list (MessageQuery * UpdateBody) :=
  omap (λ c, match c with RepoUpdate q body => Some (q, body) | _ => None end) l.

(** A record with [subject], [content] and [identifier] blanked: what is
    left is every field the pipeline has no update for. *)
Definition erase (m : MessageEntity) : MessageEntity :=
  BaseRepository.setField
    (BaseRepository.setField
       (BaseRepository.setField m ("subject", PUndefined)) ("content", PUndefined))
    ("identifier", PUndefined).

Definition creates (l : list RepoCall) : list MessageEntity :=
  omap (λ c, match c with RepoCreate m => Some m | _ => None end) l.

(** The provider calls of a trace, the compiler calls, the runs of the
    fallback for a template that does not compile, and the codes of the
    error reports. *)
Definition sends (t : list Event) : list (IntegrationEntity * Any * MailData) :=
  omap (λ e, match e with
             | EvCall (ProviderSend i f m) => Some (i, f, m)
             | _ => None
             end) t.

Definition compiles (t : list Event) : list CompileEmailTemplateCommand :=
  omap (λ e, match e with EvCall (Compile c) => Some c | _ => None end) t.

Definition fallbacks (t : list Event) : list (JobEntity * string) :=
  omap (λ e, match e with
             | EvCall (SendErrorHandlebars job message) => Some (job, message)
             | _ => None
             end) t.

Definition errorReports (t : list Event) : list LogCodeEnum :=
  omap (λ e, match e with
             | EvCall (SendErrorStatus _ _ _ _ logCode _) => Some logCode
             | _ => None
             end) t.

#[global] Instance LogCode_eq_dec : EqDecision LogCodeEnum.
Proof. solve_decision. Defined.

(** The steps of a run that concern the Message record, in the order
    they happened: the repository calls, the call to the compiler and the
    call to the provider. *)
Definition steps (t : list Event) : list Event :=
  omap (λ e, match e with
             | EvRepo _ | EvCall (Compile _) | EvCall (ProviderSend _ _ _) => Some e
             | _ => None
             end) t.

(** The milestones of a run, in the order they happened: the record is
    created, the compiler is called, the fallback is run, the provider is
    called. *)
Inductive Milestone := Created | Compiled | FellBack | Sent.

Definition milestones (t : list Event) : list Milestone :=
  omap (λ e, match e with
             | EvRepo (RepoCreate _) => Some Created
             | EvCall (Compile _) => Some Compiled
             | EvCall (SendErrorHandlebars _ _) => Some FellBack
             | EvCall (ProviderSend _ _ _) => Some Sent
             | _ => None
             end) t.

(** A code point, as UTF-8 writes it: a byte that is not a continuation
    byte, followed by continuation bytes only. *)
Definition isCodePoint (g : string) : bool :=
  match g with
  | String c rest =>
      negb (continues c) && forallb continues (String.list_ascii_of_string rest)
  | EmptyString => false
  end.

(** The concatenation of a list of strings. *)
Definition joined (l : list string) : string := foldr String.append EmptyString l.

(** Every audit entry that names a message comes after the creation of a
    record with that identifier ([created] holds the identifiers created
    so far). *)
Fixpoint recordFirst (created : list string) (t : list Event) : Prop :=
  match t with
  | [] => True
  | EvRepo (RepoCreate m) :: t' => recordFirst (m__id m :: created) t'
  | EvAudit d :: t' =>
      match d_messageId d with
      | Some messageId => messageId ∈ created
      | None => True
      end ∧ recordFirst created t'
  | _ :: t' => recordFirst created t'
  end.

(** The first character of a string. *)
Definition charOf (s : string) : Ascii.ascii :=
  match s with
  | String c _ => c
  | EmptyString => Ascii.zero
  end.

(** The character [c] occurs in [s]. *)
Fixpoint occurs (c : Ascii.ascii) (s : string) : bool :=
  match s with
  | EmptyString => false
  | String c' s' => Ascii.eqb c c' || occurs c s'
  end.

(** ** The notification-center hook [useFetchNotifications]

    The options handed to [useInfiniteQuery] and the page fetcher, over
    any type of option values. *)

Module UseFetchNotifications.

(** [{ ...options, enabled: isSessionInitialized, getNextPageParam }] *)
Definition queryOptions {V} (options : gmap string V)
  (isSessionInitialized getNextPageParam : V) : gmap string V :=
  <["getNextPageParam" := getNextPageParam]>
    (<["enabled" := isSessionInitialized]> options).

(** [({ pageParam = 0 }) => apiService.getNotificationsList(pageParam, query)] *)
Definition fetchPage {Q R} (getNotificationsList : nat → Q → R) (query : Q)
  (pageParam : option nat) : R :=
  getNotificationsList (default 0 pageParam) query.

(** [[...INFINITE_NOTIFICATIONS_QUERY_KEY, query]] *)
Definition queryKey {K} (INFINITE_NOTIFICATIONS_QUERY_KEY : list K) (query : K) : list K :=
  INFINITE_NOTIFICATIONS_QUERY_KEY ++ [query].

End UseFetchNotifications.

(** ** Fixtures: one collaborator set and a few commands *)

Module Fixture.

Definition subscriber : SubscriberEntity :=
  {| s__id := "s1"; s_subscriberId := "sub"; s__environmentId := "env";
     s_email := PUndefined |}.

Definition integration : IntegrationEntity :=
  {| i__id := "i1"; i_identifier := "sg"; i_providerId := "sendgrid";
     i_credentials := {| cr_from := PStr "me@x.com"; cr_senderName := PUndefined |} |}.

Definition template : MessageTemplateEntity :=
  {| t__id := "t1"; t_senderName := PUndefined; t_subject := PStr "Hi";
     t_preheader := PUndefined; t_content := "body"; t__layoutId := Some "L0";
     t_contentType := PUndefined |}.

Definition compiled : CompileResult :=
  {| r_html := "<p>Hi</p>"; r_content := "body"; r_subject := "Hi";
     r_senderName := PUndefined |}.

(** Everything resolves, the provider answers with the identifier
    [sent]. *)
Definition collaborators (selected : Completion (option IntegrationEntity))
  (sent : Completion (option SendResult)) : Collaborators :=
  {| getSubscriberBySubscriberId := λ subscriberId _,
       if String.eqb subscriberId "sub" then Some subscriber else None;
     getIntegration := λ _, selected;
     tenantOfJob := λ _, None;
     storeContent := true;
     compileEmailTemplate := λ _, Normal compiled;
     inlineCss := λ html, Normal html;
     MailFactory_getHandler := λ _ _, Normal (λ _, sent);
     Layout_findOne := λ _, None;
     Environment_findOne := λ _, None;
     newObjectId := λ n, "m" +:+ pretty n;
     EmailWebhook := "email-webhook" |}.

Definition co : Collaborators :=
  collaborators (Normal (Some integration)) (Normal (Some {| sr_id := PStr "p-1" |})).

Definition job : JobEntity := {| j__id := "j1"; j_tenant := None; j_actorId := None |}.

Definition command (overrides : gmap string Any2) (step : NotificationStepEntity)
  (email : Prim) : SendMessageCommand :=
  {| c_subscriberId := "sub"; c_environmentId := "env"; c_organizationId := "org";
     c_userId := "u"; c_overrides := overrides; c_job := job;
     c_step := Some step;
     c_payload := {| pl_email := email; pl_attachments := NoAttachments; pl_data := ∅ |};
     c_events := None; c_notificationId := "n"; c__subscriberId := "s1";
     c__templateId := "w"; c_transactionId := "tx123"; c_identifier := "wf";
     c_jobId := "j1" |}.

Definition step : NotificationStepEntity :=
  {| st_template := Some template; st_replyCallback := None |}.

(** A plain command whose payload carries no address. *)
Definition noAddress : SendMessageCommand := command ∅ step PUndefined.

(** A plain command to [a@x.com]. *)
Definition plain : SendMessageCommand := command ∅ step (PStr "a@x.com").

(** A command that asks for a layout nobody defined. *)
Definition unknownLayout : SendMessageCommand :=
  command {[ "layoutIdentifier" := str "missing" ]} step (PStr "a@x.com").

(** A command whose step has no template. *)
Definition noTemplate : SendMessageCommand :=
  command ∅ {| st_template := None; st_replyCallback := None |} (PStr "a@x.com").

(** A command whose step enables reply callbacks, with a callback URL. *)
Definition withReply : SendMessageCommand :=
  command ∅
    {| st_template := Some template;
       st_replyCallback :=
         Some {| rc_active := PBool true; rc_url := PStr "https://x.com/reply" |} |}
    (PStr "a@x.com").

(** A command whose step enables reply callbacks, without a callback
    URL. *)
Definition withReplyNoUrl : SendMessageCommand :=
  command ∅
    {| st_template := Some template;
       st_replyCallback := Some {| rc_active := PBool true; rc_url := PUndefined |} |}
    (PStr "a@x.com").

(** A command whose payload holds a string under [attachments]. *)
Definition badAttachments : SendMessageCommand :=
  {| c_subscriberId := "sub"; c_environmentId := "env"; c_organizationId := "org";
     c_userId := "u"; c_overrides := ∅; c_job := job;
     c_step := Some step;
     c_payload :=
       {| pl_email := PStr "a@x.com"; pl_attachments := NotAnArray; pl_data := ∅ |};
     c_events := None; c_notificationId := "n"; c__subscriberId := "s1";
     c__templateId := "w"; c_transactionId := "tx123"; c_identifier := "wf";
     c_jobId := "j1" |}.

(** No integration is selected. *)
Definition coNone : Collaborators := collaborators (Normal None) (Normal None).

(** The selection fails. *)
Definition coLimit : Collaborators :=
  collaborators (Throw (ExternalError "limit")) (Normal None).

(** The provider answers without an identifier. *)
Definition coNoId : Collaborators :=
  collaborators (Normal (Some integration)) (Normal None).

(** Content is not stored. *)
Definition coNoStore : Collaborators :=
  {| getSubscriberBySubscriberId := getSubscriberBySubscriberId co;
     getIntegration := getIntegration co;
     tenantOfJob := tenantOfJob co;
     storeContent := false;
     compileEmailTemplate := compileEmailTemplate co;
     inlineCss := inlineCss co;
     MailFactory_getHandler := MailFactory_getHandler co;
     Layout_findOne := Layout_findOne co;
     Environment_findOne := Environment_findOne co;
     newObjectId := newObjectId co;
     EmailWebhook := EmailWebhook co |}.

(** The template does not compile. *)
Definition coNoCompile : Collaborators :=
  {| getSubscriberBySubscriberId := getSubscriberBySubscriberId co;
     getIntegration := getIntegration co;
     tenantOfJob := tenantOfJob co;
     storeContent := storeContent co;
     compileEmailTemplate := λ _, Throw (ExternalError "Missing helper");
     inlineCss := inlineCss co;
     MailFactory_getHandler := MailFactory_getHandler co;
     Layout_findOne := Layout_findOne co;
     Environment_findOne := Environment_findOne co;
     newObjectId := newObjectId co;
     EmailWebhook := EmailWebhook co |}.


(** The CSS cannot be inlined. *)
Definition coNoInline : Collaborators :=
  {| getSubscriberBySubscriberId := getSubscriberBySubscriberId co;
     getIntegration := getIntegration co;
     tenantOfJob := tenantOfJob co;
     storeContent := storeContent co;
     compileEmailTemplate := compileEmailTemplate co;
     inlineCss := λ _, Throw (ExternalError "Unclosed block");
     MailFactory_getHandler := MailFactory_getHandler co;
     Layout_findOne := Layout_findOne co;
     Environment_findOne := Environment_findOne co;
     newObjectId := newObjectId co;
     EmailWebhook := EmailWebhook co |}.


(** The provider refuses the message. *)
Definition coRefused : Collaborators :=
  collaborators (Normal (Some integration)) (Throw (ExternalError "421 try later")).

(** Every layout identifier resolves to the layout [L1]. *)
Definition coLayout : Collaborators :=
  {| getSubscriberBySubscriberId := getSubscriberBySubscriberId co;
     getIntegration := getIntegration co;
     tenantOfJob := tenantOfJob co;
     storeContent := storeContent co;
     compileEmailTemplate := compileEmailTemplate co;
     inlineCss := inlineCss co;
     MailFactory_getHandler := MailFactory_getHandler co;
     Layout_findOne := λ _, Some {| l__id := "L1" |};
     Environment_findOne := Environment_findOne co;
     newObjectId := newObjectId co;
     EmailWebhook := EmailWebhook co |}.

Definition options : IEmailOptions unit :=
  {| to := ToOne (PStr "a@x.com"); subject := "Hi"; html := "<p>Hi</p>";
     from := str "me@x.com"; text := str "plain"; cc := VArr [PStr "c@x.com"];
     bcc := VArr [PStr "d@x.com"]; attachments := None; id := Some "m0";
     replyTo := undefined; notificationDetails := None; ipPoolName := undefined;
     customData := undefined; payloadDetails := None |}.

End Fixture.

(** * Properties *)

(** ** [Object.assign] *)

Lemma assign1_lookup (target : gmap string Any) (source : Any2) (k : string) :
  assign1 target source !! k =
    match ownProps source !! k with
    | Some v => Some v
    | None => target !! k
    end.
Proof.
  unfold assign1. revert k.
  apply (map_fold_weak_ind
           (λ (r : gmap string Any) (m : gmap string Any),
              ∀ k, r !! k = match m !! k with Some v => Some v | None => target !! k end)).
  - intros k. by rewrite lookup_empty.
  - intros i x m r Hi IH k. rewrite !lookup_insert.
    case_decide; [done | apply IH].
Qed.

Lemma Object_assign_two (a b : Any2) (k : string) :
  Object_assign ∅ [a; b] !! k =
    match ownProps b !! k with
    | Some v => Some v
    | None => ownProps a !! k
    end.
Proof.
  unfold Object_assign. cbn [foldl]. rewrite !assign1_lookup, lookup_empty.
  by destruct (ownProps a !! k).
Qed.

(** C5: a key bound in both the channel-scoped override map
    ([overrides.email]) and the provider-scoped one
    ([overrides[providerId]]) is bound, in the merged map built before the
    Message record is created, to the provider-scoped value. *)
Theorem mergeOverrides_provider_wins
  (command : SendMessageCommand) (integration : IntegrationEntity)
  (channel provider : gmap string Any) (k : string) (vc vp : Any) :
  c_overrides command !! "email" = Some (VObj channel) →
  c_overrides command !! i_providerId integration = Some (VObj provider) →
  channel !! k = Some vc →
  provider !! k = Some vp →
  mergeOverrides command integration !! k = Some vp
  ∧ Object_assign ∅ [VObj channel; VObj provider] !! k = Some vp.
Proof.
  intros Hc Hp Hkc Hkp. unfold mergeOverrides, get.
  rewrite Hc, Hp. cbn [Js.or truthy].
  rewrite !Object_assign_two. cbn [ownProps]. by rewrite Hkp.
Qed.

Lemma mergeOverrides_provider_wins_witness :
  mergeOverrides
    (Fixture.command
       {[ "email" := VObj {[ "senderName" := str "Channel" ]};
          "sendgrid" := VObj {[ "senderName" := str "Provider" ]} ]}
       Fixture.step (PStr "a@x.com"))
    Fixture.integration !! "senderName" = Some (str "Provider")
  ∧ Object_assign ∅
      [VObj {[ "senderName" := str "Channel" ]};
       VObj {[ "senderName" := str "Provider" ]}] !! "senderName"
    = Some (str "Provider").
Proof.
  apply (mergeOverrides_provider_wins _ _
           {[ "senderName" := str "Channel" ]} {[ "senderName" := str "Provider" ]}
           "senderName" (str "Channel") (str "Provider"));
    vm_compute; reflexivity.
Defined.

(** ** [createMailData] *)

Lemma dedup_from_ext (s1 s2 l : list Prim) :
  (∀ x, x ∈ s1 ↔ x ∈ s2) → dedup_from s1 l = dedup_from s2 l.
Proof.
  revert s1 s2. induction l as [|x l IH]; intros s1 s2 Hs; [done|].
  cbn [dedup_from].
  rewrite (bool_decide_ext (x ∈ s1) (x ∈ s2)) by apply Hs.
  destruct (bool_decide (x ∈ s2)); [by apply IH|].
  f_equal. apply IH. intros y. rewrite !elem_of_cons. by rewrite Hs.
Qed.

Lemma foldl_filterDuplicate (acc l : list Prim) :
  foldl filterDuplicate acc l = acc ++ dedup_from acc l.
Proof.
  revert acc. induction l as [|x l IH]; intros acc; cbn [foldl dedup_from].
  - by rewrite app_nil_r.
  - unfold filterDuplicate at 2. destruct (bool_decide (x ∈ acc)) eqn:Hx.
    + apply IH.
    + rewrite IH, <- app_assoc. cbn [app]. do 2 f_equal.
      apply dedup_from_ext. intros y. set_solver.
Qed.

Lemma dedup_from_elem (seen l : list Prim) (x : Prim) :
  x ∈ dedup_from seen l ↔ x ∈ l ∧ x ∉ seen.
Proof.
  revert seen. induction l as [|y l IH]; intros seen; cbn [dedup_from].
  - rewrite elem_of_nil. set_solver.
  - destruct (bool_decide (y ∈ seen)) eqn:Hy.
    + apply bool_decide_eq_true in Hy. rewrite IH, elem_of_cons. set_solver.
    + apply bool_decide_eq_false in Hy. rewrite !elem_of_cons, IH, elem_of_cons.
      destruct (decide (x = y)) as [->|]; set_solver.
Qed.

Lemma dedup_from_NoDup (seen l : list Prim) : NoDup (dedup_from seen l).
Proof.
  revert seen. induction l as [|y l IH]; intros seen; cbn [dedup_from].
  - constructor.
  - destruct (bool_decide (y ∈ seen)); [apply IH|].
    constructor; [|apply IH]. rewrite dedup_from_elem. set_solver.
Qed.

Lemma dedup_from_app (seen l1 l2 : list Prim) :
  dedup_from seen (l1 ++ l2) = dedup_from seen l1 ++ dedup_from (seen ++ l1) l2.
Proof.
  revert seen. induction l1 as [|x l1 IH]; intros seen; cbn [app dedup_from].
  - by rewrite app_nil_r.
  - destruct (bool_decide (x ∈ seen)) eqn:Hx.
    + rewrite IH. f_equal. apply dedup_from_ext. intros y.
      apply bool_decide_eq_true in Hx. set_solver.
    + rewrite IH. cbn [app]. do 2 f_equal. apply dedup_from_ext. intros y. set_solver.
Qed.

Lemma dedup_from_seen (seen l : list Prim) :
  (∀ x, x ∈ l → x ∈ seen) → dedup_from seen l = [].
Proof.
  induction l as [|x l IH]; intros Hl; [done|]. cbn [dedup_from].
  rewrite bool_decide_eq_true_2 by (apply Hl; set_solver).
  apply IH. intros y Hy. apply Hl. set_solver.
Qed.

Lemma dedup_from_fixed (seen l : list Prim) :
  NoDup l → (∀ x, x ∈ l → x ∉ seen) → dedup_from seen l = l.
Proof.
  revert seen. induction l as [|x l IH]; intros seen Hnd Hl; [done|].
  cbn [dedup_from]. apply NoDup_cons in Hnd as [Hx Hnd].
  rewrite bool_decide_eq_false_2 by (apply Hl; set_solver).
  f_equal. apply IH; [done|]. intros y Hy. specialize (Hl y). set_solver.
Qed.

Lemma dedup_first_seen_again (base extra : list Prim) :
  dedup_first_seen (dedup_first_seen (base ++ extra) ++ extra)
  = dedup_first_seen (base ++ extra).
Proof.
  unfold dedup_first_seen. rewrite dedup_from_app. cbn [app].
  rewrite (dedup_from_fixed [] (dedup_from [] (base ++ extra)));
    [|apply dedup_from_NoDup|set_solver].
  rewrite (dedup_from_seen (dedup_from [] (base ++ extra)) extra);
    [by rewrite app_nil_r|].
  intros x Hx. rewrite dedup_from_elem. set_solver.
Qed.

Lemma createMailData_to {D} (options : IEmailOptions D)
  (overrides : gmap string Any) (extra : list Prim) :
  spread (Js.or (get overrides "to") (VArr [])) = Some extra →
  ∃ mail, createMailData options overrides = Normal mail
    ∧ to mail = ToMany (dedup_first_seen (baseRecipients options ++ extra)).
Proof.
  intros Hs. unfold createMailData. rewrite Hs. eexists. split; [reflexivity|].
  cbn [to]. by rewrite foldl_filterDuplicate.
Qed.

(** C6: whatever the base options hold under [to], one address or a list
    of addresses, and whatever list of recipients the override map
    supplies under [to] (or none, when it has no such key),
    [createMailData] returns as [to] the base address or addresses
    followed by the supplied ones, each address kept at its first
    occurrence only: a list without duplicates that has exactly the
    addresses of the two, that begins with the base address when there
    is one, and that is the plain concatenation when nothing is
    repeated.  Base [a@x.com] with overrides [a@x.com, b@x.com] gives
    [a@x.com, b@x.com]; base [b@x.com, a@x.com, b@x.com] with overrides
    [c@x.com, a@x.com] gives [b@x.com, a@x.com, c@x.com]. *)
Theorem createMailData_to_deduplicated {D} (options : IEmailOptions D)
  (rest : gmap string Any) (extra : list Prim) :
  let base :=
    match to options with
    | ToOne address => [address]
    | ToMany addresses => addresses
    end in
  let merged := dedup_first_seen (base ++ extra) in
  (∃ mail, createMailData options (<["to" := VArr extra]> rest) = Normal mail
     ∧ to mail = ToMany merged)
  ∧ (∃ mail, createMailData options (delete "to" rest) = Normal mail
       ∧ to mail = ToMany (dedup_first_seen base))
  ∧ NoDup merged
  ∧ (∀ x, x ∈ merged ↔ x ∈ base ++ extra)
  ∧ (∀ address, to options = ToOne address → head merged = Some address)
  ∧ (NoDup (base ++ extra) → merged = base ++ extra)
  ∧ (∃ mail,
       createMailData
         {| to := ToOne (PStr "a@x.com"); subject := "Hi"; html := "<p>Hi</p>";
            from := str "me@x.com"; text := undefined; cc := undefined;
            bcc := undefined; attachments := None; id := None;
            replyTo := undefined;
            notificationDetails := None; ipPoolName := undefined;
            customData := undefined; payloadDetails := @None unit |}
         {[ "to" := VArr [PStr "a@x.com"; PStr "b@x.com"] ]} = Normal mail
       ∧ to mail = ToMany [PStr "a@x.com"; PStr "b@x.com"])
  ∧ (∃ mail,
       createMailData
         {| to := ToMany [PStr "b@x.com"; PStr "a@x.com"; PStr "b@x.com"];
            subject := "Hi"; html := "<p>Hi</p>";
            from := str "me@x.com"; text := undefined; cc := undefined;
            bcc := undefined; attachments := None; id := None;
            replyTo := undefined;
            notificationDetails := None; ipPoolName := undefined;
            customData := undefined; payloadDetails := @None unit |}
         {[ "to" := VArr [PStr "c@x.com"; PStr "a@x.com"] ]} = Normal mail
       ∧ to mail = ToMany [PStr "b@x.com"; PStr "a@x.com"; PStr "c@x.com"]).
Proof.
  intros base merged. subst merged.
  assert (Hbase : base = baseRecipients options)
    by (unfold base, baseRecipients; by destruct (to options)).
  assert (Hone : ∀ address, to options = ToOne address → base = [address])
    by (intros address Hone; unfold base; by rewrite Hone).
  clearbody base.
  split; [|split; [|split; [|split; [|split; [|split; [|split]]]]]].
  - rewrite Hbase. apply createMailData_to. unfold get. by rewrite lookup_insert_eq.
  - rewrite Hbase, <- (app_nil_r (baseRecipients options)).
    apply createMailData_to. unfold get. by rewrite lookup_delete_eq.
  - apply dedup_from_NoDup.
  - intros x. unfold dedup_first_seen. rewrite dedup_from_elem. set_solver.
  - intros address Haddress. rewrite (Hone _ Haddress).
    unfold dedup_first_seen. cbn [app dedup_from].
    by rewrite bool_decide_eq_false_2 by set_solver.
  - intros Hnd. unfold dedup_first_seen.
    apply dedup_from_fixed; [done | set_solver].
  - eexists. split; [vm_compute; reflexivity | reflexivity].
  - eexists. split; [vm_compute; reflexivity | reflexivity].
Qed.

(** C10: in what [createMailData] returns, [text] is what the override map
    holds under [text] ([undefined] when the key is missing), and [cc]
    and [bcc] are what it holds under [cc] and [bcc], the empty list
    standing in for a missing (or falsy) value.  None of the three reads
    the base options, so a base [text], [cc] or [bcc] never survives.  The
    only way not to return is a [TypeError] for an override [to] that
    cannot be iterated. *)
Theorem createMailData_text_cc_bcc {D} (options : IEmailOptions D)
  (overrides : gmap string Any) :
  match createMailData options overrides with
  | Normal mail =>
      text mail = match overrides !! "text" with
                  | Some v => v
                  | None => undefined
                  end
      ∧ cc mail = match overrides !! "cc" with
                  | Some v => if truthy v then v else VArr []
                  | None => VArr []
                  end
      ∧ bcc mail = match overrides !! "bcc" with
                   | Some v => if truthy v then v else VArr []
                   | None => VArr []
                   end
  | Throw _ => spread (Js.or (get overrides "to") (VArr [])) = None
  end.
Proof.
  unfold createMailData.
  destruct (spread (Js.or (get overrides "to") (VArr []))); [|done].
  cbn [text cc bcc]. unfold get, Js.or.
  repeat split.
  - by destruct (overrides !! "cc").
  - by destruct (overrides !! "bcc").
Qed.

(** ** [getReplyToAddress] *)

(** C7: the reply-to address is the concatenation of [parse+], the
    transaction identifier, [-nv-e=], the environment identifier, [@] and
    the inbound-parse domain, verbatim, for all strings (the non-empty
    ones among them); it is a function of these three alone. *)
Theorem getReplyToAddress_format (transactionId environmentId inboundParseDomain : string) :
  getReplyToAddress transactionId environmentId inboundParseDomain
  = "parse+" +:+ transactionId +:+ "-nv-e=" +:+ environmentId +:+ "@" +:+ inboundParseDomain
  ∧ getReplyToAddress "tx123" "env456" "reply.example.com"
    = "parse+tx123-nv-e=env456@reply.example.com".
Proof. split; reflexivity. Qed.

(** ** Runs of the pipeline *)

#[local] Arguments createMailData : simpl never.
#[local] Arguments baseMailData : simpl never.
#[local] Arguments mergeOverrides : simpl never.
#[local] Arguments compilePayload : simpl never.
#[local] Arguments compileCommand : simpl never.
#[local] Arguments newMessage : simpl never.
#[local] Arguments preparedMessage : simpl never.
#[local] Arguments messageQuery : simpl never.
#[local] Arguments buildFactoryIntegration : simpl never.
#[local] Arguments set_reply_to_address : simpl never.
#[local] Arguments detail : simpl never.
#[local] Arguments getReplyToAddress : simpl never.
#[local] Arguments String.append : simpl never.
#[local] Arguments get : simpl never.
#[local] Arguments prop : simpl never.
#[local] Arguments BaseRepository.updateMany : simpl never.
#[local] Arguments overrideMailData : simpl never.
#[local] Arguments messageCreated : simpl never.
#[local] Arguments mapAttachments : simpl never.

Ltac run_unfold :=
  unfold execute_deliver, execute_prepare, execute_dispatch, execute_replyTo,
    getReplyTo, getOverrideLayoutId, sendMessage, sendErrors,
    handleTenantExecution, sendSelectedIntegrationExecution,
    sendErrorStatus, sendErrorHandlebars,
    BaseRepository.update, BaseRepository.create, BaseRepository.findOne,
    BaseRepository.mapEntity,
    executionLogQueueService_add, call, emit, lift, throw, try_catch,
    mbind, M_bind, mret, M_ret, prepend.

Section Runs.

Context (co : Collaborators).

Lemma M_bind_run {A B} (m : M A) (f : A → M B) (s : Store) :
  (m ≫= f) s =
    match m s with
    | Build_Run (Normal a) s' t => prepend t (f a s')
    | Build_Run (Throw e) s' t => Build_Run (Throw e) s' t
    end.
Proof. reflexivity. Qed.

Lemma execute_reaches_deliver (command : SendMessageCommand) (s : Store)
  (subscriber : SubscriberEntity) (integration : IntegrationEntity)
  (step : NotificationStepEntity) (template : MessageTemplateEntity) :
  getSubscriberBySubscriberId co (c_subscriberId command) (c_environmentId command)
    = Some subscriber →
  getIntegration co (integrationQuery command) = Normal (Some integration) →
  c_step command = Some step →
  st_template step = Some template →
  execute co command s
  = execute_deliver co command subscriber integration template
      (orP (pl_email (c_payload command)) (s_email subscriber)) s.
Proof. intros Hs Hi Hst Ht. unfold execute. by rewrite Hs, Hi, Hst, Ht. Qed.

Lemma getOverrideLayoutId_run (command : SendMessageCommand) (s : Store) :
  ∃ layoutId t,
    getOverrideLayoutId co command s
    = {| outcome := Normal layoutId; store := s; trace := t |}
    ∧ (t = [] ∨ t = [EvAudit (layoutNotFound command)]).
Proof.
  run_unfold.
  destruct (truthy _); [|by eexists _, _; split; [reflexivity|left]].
  destruct (Layout_findOne co _); eexists _, _; (split; [reflexivity|]); cbn; auto.
Qed.

Lemma execute_prepare_run (command : SendMessageCommand)
  (subscriber : SubscriberEntity) (integration : IntegrationEntity)
  (template : MessageTemplateEntity) (email : Prim) (s : Store) :
  ∃ payload tl,
    execute_prepare co command subscriber integration template email s
    = {| outcome := Normal (preparedMessage co command integration template email s,
                            mergeOverrides command integration, payload);
         store := s ++ [preparedMessage co command integration template email s];
         trace := EvCall (HandleTenantExecution (c_job command)) ::
                  EvCall (SendSelectedIntegrationExecution (c_job command) integration) ::
                  tl ++
                  [EvRepo (RepoCreate
                             (preparedMessage co command integration template email s))] |}
    ∧ (tl = [] ∨ tl = [EvAudit (layoutNotFound command)]).
Proof.
  destruct (getOverrideLayoutId_run command s) as (lid & tl & Hl & Ht).
  eexists _, tl. split; [|done].
  unfold execute_prepare, handleTenantExecution, sendSelectedIntegrationExecution,
    BaseRepository.create, call, emit, mbind, M_bind, mret, M_ret.
  cbn. rewrite Hl. cbn. reflexivity.
Qed.

(** [getReplyTo] as a decision table. *)
Lemma getReplyTo_run (command : SendMessageCommand) (messageId : string) (s : Store) :
  let warn code :=
    {| outcome := Normal None; store := s;
       trace := [EvAudit (replyWarning command messageId code)] |} in
  getReplyTo co command messageId s =
    if truthyP (replyCallback_url command) then
      match Environment_findOne co (c_environmentId command) with
      | None =>
          {| outcome :=
               Throw (PlatformException
                        ("Environment " +:+ c_environmentId command +:+ " is not found"));
             store := s; trace := [] |}
      | Some environment =>
          match truthyB (e_dns environment ≫= dns_mxRecordConfigured),
                truthyS (e_dns environment ≫= dns_inboundParseDomain) with
          | true, true =>
              {| outcome :=
                   Normal (Some (getReplyToAddress (c_transactionId command)
                                   (e__id environment)
                                   (default "" (e_dns environment ≫= dns_inboundParseDomain))));
                 store := s; trace := [] |}
          | false, false => warn REPLY_CALLBACK_NOT_CONFIGURATION
          | false, true => warn REPLY_CALLBACK_MISSING_MX_RECORD_CONFIGURATION
          | true, false => warn REPLY_CALLBACK_MISSING_MX_ROUTE_DOMAIN_CONFIGURATION
          end
      end
    else warn REPLY_CALLBACK_MISSING_REPLAY_CALLBACK_URL.
Proof.
  intros warn. subst warn. run_unfold.
  destruct (truthyP (replyCallback_url command)); [|reflexivity].
  cbn [negb]. destruct (Environment_findOne co _) as [environment|]; [|reflexivity].
  destruct (truthyB _), (truthyS _); reflexivity.
Qed.

Lemma getReplyToAddress_truthy (t e d : string) :
  truthyS (Some (getReplyToAddress t e d)) = true.
Proof. reflexivity. Qed.


(** [sendErrors] as a decision table. *)
Lemma sendErrors_run (email : Prim) (integration : IntegrationEntity)
  (message : MessageEntity) (command : SendMessageCommand) (s : Store) :
  sendErrors email (Some integration) message command s =
    if truthyP email then {| outcome := Normal tt; store := s; trace := [] |}
    else
      {| outcome := Normal tt; store := s;
         trace :=
           [EvCall (SendErrorStatus message "warning" "mail_unexpected_error"
                      "Subscriber does not have an email address"
                      SUBSCRIBER_MISSING_EMAIL None);
            EvAudit (missingAddress command message)] |}.
Proof. run_unfold. by destruct (truthyP email). Qed.

(** [sendMessage] as a decision table. *)
Lemma sendMessage_run (integration : IntegrationEntity) (mailData : MailData)
  (message : MessageEntity) (command : SendMessageCommand) (senderName : Prim)
  (s : Store) :
  let factoryIntegration := buildFactoryIntegration integration senderName in
  let sending := EvCall (ProviderSend factoryIntegration (from mailData) mailData) in
  sendMessage co integration mailData message command senderName s =
    match MailFactory_getHandler co factoryIntegration (from mailData) with
    | Throw error => {| outcome := Throw error; store := s; trace := [] |}
    | Normal mailHandler =>
        match mailHandler mailData with
        | Normal result =>
            if truthyP (result_id result) then
              {| outcome := Normal tt;
                 store := BaseRepository.updateMany (messageQuery command message)
                            [("identifier", result_id result)] s;
                 trace := [sending; EvAudit (messageSent command message result);
                           EvRepo (RepoUpdate (messageQuery command message)
                                     [("identifier", result_id result)])] |}
            else
              {| outcome := Normal tt; store := s;
                 trace := [sending; EvAudit (messageSent command message result)] |}
        | Throw error =>
            {| outcome := Normal tt; store := s;
               trace := [sending;
                         EvCall (SendErrorStatus message "error" "mail_unexpected_error"
                                   "Error while sending email with provider"
                                   MAIL_PROVIDER_DELIVERY_ERROR (Some error));
                         EvAudit (providerError command message error)] |}
        end
    end.
Proof.
  cbv zeta. run_unfold. cbn.
  destruct (MailFactory_getHandler co _ _) as [mailHandler|error]; [|reflexivity].
  cbn. destruct (mailHandler mailData) as [result|error]; [|reflexivity].
  cbn. by destruct (truthyP (result_id result)).
Qed.

(** [execute_dispatch] as a decision table. *)
Lemma execute_dispatch_run (command : SendMessageCommand)
  (subscriber : SubscriberEntity) (integration : IntegrationEntity)
  (email : Prim) (overrides : gmap string Any) (message : MessageEntity)
  (replyToAddress : option string) (payload : CompilePayload) (s : Store) :
  let compiling := EvCall (Compile (compileCommand command payload)) in
  let fallback e := EvCall (SendErrorHandlebars (c_job command) (message_of e)) in
  execute_dispatch co command subscriber integration email overrides message
    replyToAddress payload s =
    match compileEmailTemplate co (compileCommand command payload) with
    | Throw e =>
        {| outcome := Normal tt; store := s; trace := [compiling; fallback e] |}
    | Normal compiled =>
        let s1 :=
          if storeContent co
          then BaseRepository.updateMany (messageQuery command message)
                 (contentBody compiled) s
          else s in
        let stored :=
          if storeContent co
          then [EvRepo (RepoUpdate (messageQuery command message) (contentBody compiled))]
          else [] in
        match inlineCss co (r_html compiled) with
        | Throw e =>
            {| outcome := Normal tt; store := s1;
               trace := compiling :: stored ++ [fallback e] |}
        | Normal html =>
            let created := EvAudit (messageCreated co command message payload) in
            match mapAttachments (pl_attachments (c_payload command)) with
            | Throw e =>
                {| outcome := Throw e; store := s1;
                   trace := compiling :: stored ++ [created] |}
            | Normal attachments =>
                match createMailData
                        (baseMailData command subscriber integration message email
                           (r_subject compiled) html attachments replyToAddress)
                        overrides with
                | Throw e =>
                    {| outcome := Throw e; store := s1;
                       trace := compiling :: stored ++ [created] |}
                | Normal mailData =>
                    prepend (compiling :: stored ++ [created])
                      (if truthyP email then
                         sendMessage co integration
                           (overrideMailData co command integration payload mailData)
                           message command (r_senderName compiled) s1
                       else sendErrors email (Some integration) message command s1)
                end
            end
        end
    end.
Proof.
  cbv zeta. unfold execute_dispatch, try_catch, mbind, M_bind, mret, M_ret,
    call, emit, lift, sendErrorHandlebars, executionLogQueueService_add,
    BaseRepository.update, contentBody.
  cbn. destruct (compileEmailTemplate co _) as [compiled|e]; [|reflexivity].
  cbn. destruct (storeContent co); cbn.
  - destruct (inlineCss co _) as [html|e]; [|reflexivity].
    cbn. destruct (mapAttachments _) as [attachments|e]; [|reflexivity].
    cbn. destruct (createMailData _ _) as [mailData|e]; [|reflexivity].
    cbn. destruct (truthyP email);
      [by destruct (sendMessage _ _ _ _ _ _ _) | by destruct (sendErrors _ _ _ _ _)].
  - destruct (inlineCss co _) as [html|e]; [|reflexivity].
    cbn. destruct (mapAttachments _) as [attachments|e]; [|reflexivity].
    cbn. destruct (createMailData _ _) as [mailData|e]; [|reflexivity].
    cbn. destruct (truthyP email);
      [by destruct (sendMessage _ _ _ _ _ _ _) | by destruct (sendErrors _ _ _ _ _)].
Qed.

(** [execute_deliver] in terms of its three stages. *)
Lemma execute_deliver_run (command : SendMessageCommand)
  (subscriber : SubscriberEntity) (integration : IntegrationEntity)
  (template : MessageTemplateEntity) (email : Prim) (s : Store)
  (message : MessageEntity) (overrides : gmap string Any) (payload : CompilePayload)
  (s1 : Store) (t1 : list Event) :
  execute_prepare co command subscriber integration template email s
    = {| outcome := Normal (message, overrides, payload); store := s1; trace := t1 |} →
  execute_deliver co command subscriber integration template email s =
    prepend t1
      match execute_replyTo co command message payload s1 with
      | Build_Run (Normal (replyToAddress, payload')) s2 t2 =>
          prepend t2
            (execute_dispatch co command subscriber integration email overrides message
               replyToAddress payload' s2)
      | Build_Run (Throw e) s2 t2 => Build_Run (Throw e) s2 t2
      end.
Proof.
  intros Hp. unfold execute_deliver, mbind, M_bind. rewrite Hp.
  by destruct (execute_replyTo _ _ _ _ _) as [[[]|] ? ?].
Qed.


(** The reply-to stage as a decision table. *)
Lemma execute_replyTo_table (command : SendMessageCommand) (message : MessageEntity)
  (payload : CompilePayload) (s : Store) :
  let none t := {| outcome := Normal (None, payload); store := s; trace := t |} in
  let warn code := none [EvAudit (replyWarning command (m__id message) code)] in
  execute_replyTo co command message payload s =
    if truthyP (replyCallback_active command) then
      if truthyP (replyCallback_url command) then
        match Environment_findOne co (c_environmentId command) with
        | None =>
            {| outcome :=
                 Throw (PlatformException
                          ("Environment " +:+ c_environmentId command
                             +:+ " is not found"));
               store := s; trace := [] |}
        | Some environment =>
            let domain := e_dns environment ≫= dns_inboundParseDomain in
            match truthyB (e_dns environment ≫= dns_mxRecordConfigured),
                  truthyS domain with
            | true, true =>
                let address :=
                  getReplyToAddress (c_transactionId command) (e__id environment)
                    (default "" domain) in
                {| outcome := Normal (Some address, set_reply_to_address payload address);
                   store := s; trace := [] |}
            | false, false => warn REPLY_CALLBACK_NOT_CONFIGURATION
            | false, true => warn REPLY_CALLBACK_MISSING_MX_RECORD_CONFIGURATION
            | true, false => warn REPLY_CALLBACK_MISSING_MX_ROUTE_DOMAIN_CONFIGURATION
            end
        end
      else warn REPLY_CALLBACK_MISSING_REPLAY_CALLBACK_URL
    else none [].
Proof.
  cbv zeta. unfold execute_replyTo.
  destruct (truthyP (replyCallback_active command)); [|reflexivity].
  rewrite M_bind_run, getReplyTo_run.
  destruct (truthyP (replyCallback_url command)); [|reflexivity].
  destruct (Environment_findOne co _) as [environment|]; [|reflexivity].
  destruct (truthyB (e_dns environment ≫= dns_mxRecordConfigured)),
    (truthyS (e_dns environment ≫= dns_inboundParseDomain));
    cbn [prepend]; rewrite ?getReplyToAddress_truthy; reflexivity.
Qed.

Lemma execute_replyTo_cases (command : SendMessageCommand) (message : MessageEntity)
  (payload : CompilePayload) (s : Store) :
  (truthyP (replyCallback_active command) = true
   ∧ truthyP (replyCallback_url command) = true
   ∧ Environment_findOne co (c_environmentId command) = None
   ∧ ∃ e, execute_replyTo co command message payload s
          = {| outcome := Throw e; store := s; trace := [] |})
  ∨ (∃ replyToAddress payload' t,
       execute_replyTo co command message payload s
       = {| outcome := Normal (replyToAddress, payload'); store := s; trace := t |}
       ∧ cp_layoutId payload' = cp_layoutId payload
       ∧ (t = [] ∨ ∃ code, code ∈ replyCodes
                     ∧ t = [EvAudit (replyWarning command (m__id message) code)])).
Proof.
  rewrite execute_replyTo_table. cbv zeta.
  destruct (truthyP (replyCallback_active command));
    [|right; eexists _, _, _; split; [reflexivity|]; auto].
  destruct (truthyP (replyCallback_url command)).
  - destruct (Environment_findOne co _) as [environment|]; [|left; eauto].
    right.
    destruct (truthyB _), (truthyS (e_dns environment ≫= dns_inboundParseDomain));
      eexists _, _, _; (split; [reflexivity|]); (split; [reflexivity|]);
      first [by left | right; eexists; split; [|reflexivity]; unfold replyCodes; set_solver].
  - right. eexists _, _, _. split; [reflexivity|]. split; [reflexivity|].
    right. eexists. split; [|reflexivity]. unfold replyCodes. set_solver.
Qed.

End Runs.

(** Case analysis of a run of [execute_deliver]: the outcome of every
    stage is named and the run is reduced to its events. *)
Ltac deliver_cases co command subscriber integration template email s :=
  let payload := fresh "payload" in
  let tl := fresh "tl" in
  let Hp := fresh "Hprepare" in
  let Htl := fresh "Htl" in
  let Hr := fresh "Hreply" in
  let Ht2 := fresh "Hwarn" in
  destruct (execute_prepare_run co command subscriber integration template email s)
    as (payload & tl & Hp & Htl);
  rewrite (execute_deliver_run co _ _ _ _ _ _ _ _ _ _ _ Hp);
  destruct (execute_replyTo_cases co command
              (preparedMessage co command integration template email s) payload
              (s ++ [preparedMessage co command integration template email s]))
    as [(Hactive & Hurl & Henv & e & Hr)|(replyToAddress & payload' & t2 & Hr & Hlayout & Ht2)];
  rewrite Hr;
  [ | rewrite execute_dispatch_run; cbv zeta;
      destruct (compileEmailTemplate co _) as [compiled0|ec] eqn:Hcompile;
      [ destruct (inlineCss co _) as [html|ei] eqn:Hinline;
        [ destruct (mapAttachments _) as [attachments0|ea] eqn:Hattachments;
          [ destruct (createMailData _ _) as [mailData0|em] eqn:Hmail;
            [ destruct (truthyP email) eqn:Hemail;
              [ rewrite sendMessage_run; cbv zeta;
                destruct (MailFactory_getHandler co _ _) as [mailHandler0|eh] eqn:Hhandler;
                [ destruct (mailHandler0 _) as [result0|es] eqn:Hsend;
                  [ destruct (truthyP (result_id result0)) eqn:Hid | ]
                | ]
              | rewrite sendErrors_run, Hemail ]
            | ]
          | ]
        | ]
      | ];
      destruct Ht2 as [-> | (code & Hcode & ->)] ];
  destruct Htl as [-> | ->];
  destruct (storeContent co) eqn:Hstore;
  cbn [prepend app].

Ltac execute_cases co command s :=
  unfold execute;
  destruct (getSubscriberBySubscriberId co (c_subscriberId command)
              (c_environmentId command)) as [subscriber|] eqn:Hsubscriber;
  [ destruct (getIntegration co (integrationQuery command))
      as [[integration|]|eSel] eqn:Hintegration;
    [ destruct (c_step command) as [step|] eqn:Hstep;
      [ destruct (st_template step) as [template|] eqn:Htemplate;
        [ deliver_cases co command subscriber integration template
            (orP (pl_email (c_payload command)) (s_email subscriber)) s
        | ]
      | ]
    | destruct (c_step command) as [step|] eqn:Hstep;
      [ destruct (st_template step) as [template|] eqn:Htemplate | ]
    | ]
  | ].

Ltac elem_inv H :=
  repeat first
    [ apply elem_of_nil in H; destruct H
    | apply elem_of_cons in H; destruct H as [H|H]; [try discriminate H|] ].

Ltac entries_unfold :=
  unfold layoutNotFound, replyWarning, messageCreated, missingAddress,
    missingIntegration, messageSent, providerError, limitPassed,
    noActiveIntegration, detail.

Ltac code_cases :=
  try match goal with
      | Hcode : _ ∈ replyCodes |- _ =>
          unfold replyCodes in Hcode; elem_inv Hcode; subst
      end.

Section Claims.

Context (co : Collaborators).

(** *** Frame lemmas for the message collection *)

Lemma erase_updateMany (query : MessageQuery) (body : UpdateBody) (l : Store) :
  (∀ m, erase (foldl BaseRepository.setField m body) = erase m) →
  erase <$> BaseRepository.updateMany query body l = erase <$> l.
Proof.
  intros Hb. unfold BaseRepository.updateMany. rewrite <- list_fmap_compose.
  apply list_fmap_ext. intros i m _. unfold compose.
  destruct (BaseRepository.matches query m); [apply Hb | reflexivity].
Qed.

Lemma erase_content (query : MessageQuery) (compiled : CompileResult) (l : Store) :
  erase <$> BaseRepository.updateMany query (contentBody compiled) l = erase <$> l.
Proof. apply erase_updateMany. by intros []. Qed.

Lemma erase_identifier (query : MessageQuery) (ident : Prim) (l : Store) :
  erase <$> BaseRepository.updateMany query [("identifier", ident)] l = erase <$> l.
Proof. apply erase_updateMany. by intros []. Qed.

Lemma lookup_updateMany (query : MessageQuery) (body : UpdateBody) (l : Store)
  (i : nat) (m : MessageEntity) :
  l !! i = Some m →
  BaseRepository.matches query m = true →
  BaseRepository.updateMany query body l !! i
  = Some (foldl BaseRepository.setField m body).
Proof.
  intros Hl Hm. unfold BaseRepository.updateMany.
  by rewrite list_lookup_fmap, Hl; cbn; rewrite Hm.
Qed.

Lemma matches_prepared (command : SendMessageCommand) (integration : IntegrationEntity)
  (template : MessageTemplateEntity) (email : Prim) (s : Store) :
  let message := preparedMessage co command integration template email s in
  BaseRepository.matches (messageQuery command message) message = true.
Proof.
  cbv zeta. unfold BaseRepository.matches, messageQuery. cbn.
  by rewrite !String.eqb_refl.
Qed.

Lemma matches_content (query : MessageQuery) (m : MessageEntity)
  (compiled : CompileResult) :
  BaseRepository.matches query (foldl BaseRepository.setField m (contentBody compiled))
  = BaseRepository.matches query m.
Proof. by destruct m. Qed.

Lemma lookup_created (s : Store) (m : MessageEntity) : (s ++ [m]) !! length s = Some m.
Proof. by rewrite lookup_app_r, Nat.sub_diag. Qed.

Lemma prepend_prepend {A} (t1 t2 : list Event) (r : Run A) :
  prepend t1 (prepend t2 r) = prepend (t1 ++ t2) r.
Proof. destruct r. cbn. by rewrite app_assoc. Qed.

Lemma prepend_nil {A} (r : Run A) : prepend [] r = r.
Proof. by destruct r. Qed.

(** No stage of [execute_deliver] calls the compiler with another layout
    than the one of the prepared request. *)
Lemma execute_deliver_compiles (command : SendMessageCommand)
  (subscriber : SubscriberEntity) (integration : IntegrationEntity)
  (template : MessageTemplateEntity) (email : Prim) (s : Store)
  (message : MessageEntity) (overrides : gmap string Any) (payload : CompilePayload)
  (s1 : Store) (t1 : list Event) (c : CompileEmailTemplateCommand) :
  execute_prepare co command subscriber integration template email s
    = {| outcome := Normal (message, overrides, payload); store := s1; trace := t1 |} →
  EvCall (Compile c) ∈ trace (execute_deliver co command subscriber integration
                               template email s) →
  cp_layoutId (cc_payload c) = cp_layoutId payload.
Proof.
  intros Hp. revert c.
  deliver_cases co command subscriber integration template email s;
    rewrite Hp in Hprepare; simplify_eq; cbn [trace app];
    intros c Hin; elem_inv Hin; by simplify_eq.
Qed.



Lemma replyCallback_of (command : SendMessageCommand) (step : NotificationStepEntity)
  (callback : ReplyCallback) :
  c_step command = Some step →
  st_replyCallback step = Some callback →
  replyCallback_active command = rc_active callback
  ∧ replyCallback_url command = rc_url callback.
Proof.
  intros Hst Hcb. unfold replyCallback_active, replyCallback_url. by rewrite Hst, Hcb.
Qed.

Lemma trace_prepend {A} (t : list Event) (r : Run A) :
  trace (prepend t r) = t ++ trace r.
Proof. by destruct r. Qed.

Lemma outcome_prepend {A} (t : list Event) (r : Run A) :
  outcome (prepend t r) = outcome r.
Proof. by destruct r. Qed.

Lemma audits_app (t1 t2 : list Event) : audits (t1 ++ t2) = audits t1 ++ audits t2.
Proof. apply omap_app. Qed.

Lemma repoCalls_app (t1 t2 : list Event) :
  repoCalls (t1 ++ t2) = repoCalls t1 ++ repoCalls t2.
Proof. apply omap_app. Qed.

Lemma creates_app (l1 l2 : list RepoCall) : creates (l1 ++ l2) = creates l1 ++ creates l2.
Proof. apply omap_app. Qed.

Lemma compiles_app (t1 t2 : list Event) :
  compiles (t1 ++ t2) = compiles t1 ++ compiles t2.
Proof. apply omap_app. Qed.

Lemma withStatus_app (status : ExecutionDetailsStatusEnum) (l1 l2 : list ExecutionDetail) :
  withStatus status (l1 ++ l2) = withStatus status l1 ++ withStatus status l2.
Proof. apply filter_app. Qed.

Lemma execute_prepare_payload (command : SendMessageCommand)
  (subscriber : SubscriberEntity) (integration : IntegrationEntity)
  (template : MessageTemplateEntity) (email : Prim) (s s' : Store)
  (message : MessageEntity) (overrides : gmap string Any) (payload : CompilePayload)
  (t : list Event) :
  execute_prepare co command subscriber integration template email s
    = {| outcome := Normal (message, overrides, payload); store := s'; trace := t |} →
  ∃ tenant actor layoutId,
    payload = compilePayload command template subscriber tenant actor layoutId.
Proof.
  destruct (getOverrideLayoutId_run co command s) as (lid & tl & Hl & Ht).
  unfold execute_prepare, handleTenantExecution, sendSelectedIntegrationExecution,
    BaseRepository.create, call, emit, mbind, M_bind, mret, M_ret.
  cbn. rewrite Hl. cbn. intros [= _ _ <- _ _]. eauto.
Qed.

(** The dispatch stage calls the compiler once, with the request it is
    given, creates no record and writes no [WARNING] entry. *)
Lemma execute_dispatch_quiet (command : SendMessageCommand)
  (subscriber : SubscriberEntity) (integration : IntegrationEntity)
  (email : Prim) (overrides : gmap string Any) (message : MessageEntity)
  (replyToAddress : option string) (payload : CompilePayload) (s : Store) :
  let d := execute_dispatch co command subscriber integration email overrides message
             replyToAddress payload s in
  compiles (trace d) = [compileCommand command payload]
  ∧ creates (repoCalls (trace d)) = []
  ∧ withStatus WARNING (audits (trace d)) = [].
Proof.
  cbv zeta. rewrite execute_dispatch_run. cbv zeta.
  destruct (compileEmailTemplate co _) as [compiled0|ec];
    [ destruct (inlineCss co _) as [html|ei];
      [ destruct (mapAttachments _) as [attachments0|ea];
        [ destruct (createMailData _ _) as [mailData0|em];
          [ destruct (truthyP email) eqn:Hemail;
            [ rewrite sendMessage_run; cbv zeta;
              destruct (MailFactory_getHandler co _ _) as [mailHandler0|eh];
              [ destruct (mailHandler0 _) as [result0|es];
                [ destruct (truthyP (result_id result0)) | ]
              | ]
            | rewrite sendErrors_run, Hemail ]
          | ]
        | ]
      | ]
    | ].
  all: destruct (storeContent co); cbn [prepend app]; by repeat split.
Qed.




(** C2, amended: in a run that reaches the layout lookup (the subscriber
    is resolved, an integration is selected, the step has a template),
    when a layout-override identifier is supplied and no layout of the
    environment has it, [getOverrideLayoutId] writes one audit entry, of
    status [FAILED] and code [LAYOUT_NOT_FOUND], carrying the identifier,
    and returns no identifier without raising.  The entry is written
    after the two helpers started beside the lookup have been called; the
    pipeline then creates the Message record, that entry is the only one
    with this code in the whole run, and every compile request of the
    run carries the layout of the step's template. *)
Theorem layout_override_not_found (command : SendMessageCommand) (s : Store)
  (subscriber : SubscriberEntity) (integration : IntegrationEntity)
  (step : NotificationStepEntity) (template : MessageTemplateEntity) :
  getSubscriberBySubscriberId co (c_subscriberId command) (c_environmentId command)
    = Some subscriber →
  getIntegration co (integrationQuery command) = Normal (Some integration) →
  c_step command = Some step →
  st_template step = Some template →
  truthy (get (c_overrides command) "layoutIdentifier") = true →
  Layout_findOne co
    {| lq__environmentId := c_environmentId command;
       lq_identifier := get (c_overrides command) "layoutIdentifier" |} = None →
  let r := execute co command s in
  ∃ entry message rest,
    getOverrideLayoutId co command s
    = {| outcome := Normal None; store := s; trace := [EvAudit entry] |}
    ∧ d_status entry = FAILED
    ∧ d_detail entry = LAYOUT_NOT_FOUND
    ∧ d_raw entry
      = Some (RawLayoutIdentifier (get (c_overrides command) "layoutIdentifier"))
    ∧ trace r
      = EvCall (HandleTenantExecution (c_job command))
        :: EvCall (SendSelectedIntegrationExecution (c_job command) integration)
        :: EvAudit entry :: EvRepo (RepoCreate message) :: rest
    ∧ withDetail LAYOUT_NOT_FOUND (audits (trace r)) = [entry]
    ∧ (∀ c, EvCall (Compile c) ∈ trace r →
            cp_layoutId (cc_payload c) = t__layoutId template).
Proof.
  intros Hs Hi Hst Ht Hsupplied Hfind r. subst r.
  assert (Hrun : getOverrideLayoutId co command s
                 = {| outcome := Normal None; store := s;
                      trace := [EvAudit (layoutNotFound command)] |}).
  { unfold getOverrideLayoutId, BaseRepository.findOne.
    rewrite Hsupplied, Hfind. reflexivity. }
  clear Hsupplied Hfind.
  set (email := orP (pl_email (c_payload command)) (s_email subscriber)).
  set (message := preparedMessage co command integration template email s).
  assert (Hp : execute_prepare co command subscriber integration template email s
               = {| outcome :=
                      Normal (message, mergeOverrides command integration,
                              compilePayload command template subscriber
                                (tenantOfJob co (c_job command))
                                (if truthyS (j_actorId (c_job command))
                                 then getSubscriberBySubscriberId co
                                        (default "" (j_actorId (c_job command)))
                                        (c_environmentId command)
                                 else None)
                                None);
                    store := s ++ [message];
                    trace := [EvCall (HandleTenantExecution (c_job command));
                              EvCall (SendSelectedIntegrationExecution (c_job command)
                                        integration);
                              EvAudit (layoutNotFound command);
                              EvRepo (RepoCreate message)] |}).
  { unfold execute_prepare, handleTenantExecution, sendSelectedIntegrationExecution,
      BaseRepository.create, call, emit, mbind, M_bind, mret, M_ret.
    cbn. rewrite Hrun. reflexivity. }
  rewrite (execute_reaches_deliver co _ _ _ _ _ _ Hs Hi Hst Ht). fold email.
  exists (layoutNotFound command), message.
  assert (Hshape : ∃ rest,
            trace (execute_deliver co command subscriber integration template email s)
            = EvCall (HandleTenantExecution (c_job command))
              :: EvCall (SendSelectedIntegrationExecution (c_job command) integration)
              :: EvAudit (layoutNotFound command) :: EvRepo (RepoCreate message) :: rest
            ∧ withDetail LAYOUT_NOT_FOUND
                (audits (trace (execute_deliver co command subscriber integration
                                  template email s)))
              = [layoutNotFound command]).
  { subst message email.
    deliver_cases co command subscriber integration template
      (orP (pl_email (c_payload command)) (s_email subscriber)) s;
      rewrite Hp in Hprepare; simplify_eq; code_cases;
      eexists; (split; [reflexivity|]); reflexivity. }
  destruct Hshape as (rest & Htrace & Hone).
  exists rest. split; [exact Hrun|]. split; [reflexivity|]. split; [reflexivity|].
  split; [reflexivity|]. split; [exact Htrace|]. split; [exact Hone|].
  intros c Hin. by rewrite (execute_deliver_compiles _ _ _ _ _ _ _ _ _ _ _ c Hp Hin).
Qed.

(** C3, amended: in every run the Message record is created at most
    once and never deleted, and it is updated at most twice, in this
    order.  The first update comes right after the call to the compiler
    and sets [subject] and [content] to the compiled ones: it is made
    exactly when this compilation succeeds and content is stored.  The
    second comes right after the call to the provider and sets
    [identifier]: it is made exactly when the handler is found and its
    [send] answers with a truthy identifier.  Both updates are filtered
    on the identifier of the created record and the environment of the
    command, no other repository call is made, and every other field of
    every stored record is left as it was. *)
Theorem message_record_lifecycle (command : SendMessageCommand) (s : Store) :
  let r := execute co command s in
  (steps (trace r) = [] ∧ store r = s)
  ∨ ∃ message rest,
      steps (trace r) = EvRepo (RepoCreate message) :: rest
      ∧ erase <$> store r = erase <$> (s ++ [message])
      ∧ let query :=
          {| q__id := m__id message; q__environmentId := c_environmentId command |} in
        let stored c :=
          match compileEmailTemplate co c with
          | Normal compiled =>
              if storeContent co
              then [EvRepo (RepoUpdate query
                              [("subject", PStr (r_subject compiled));
                               ("content", PStr (r_content compiled))])]
              else []
          | Throw _ => []
          end in
        let identified fi mf mail :=
          match MailFactory_getHandler co fi mf with
          | Normal mailHandler =>
              match mailHandler mail with
              | Normal (Some result) =>
                  if truthyP (sr_id result)
                  then [EvRepo (RepoUpdate query [("identifier", sr_id result)])]
                  else []
              | _ => []
              end
          | Throw _ => []
          end in
        rest = []
        ∨ ∃ c,
            rest = EvCall (Compile c) :: stored c
            ∨ ∃ fi mf mail,
                rest = EvCall (Compile c) :: stored c
                         ++ EvCall (ProviderSend fi mf mail) :: identified fi mf mail.
Proof.
  intros r. subst r.
  execute_cases co command s; try (left; split; reflexivity); right.
  all: eexists _, _; cbn [trace store steps omap option_bind mbind app];
    rewrite ?erase_identifier, ?erase_content.
  all: split; [reflexivity|]; split; [reflexivity|]; cbv zeta.
  all: try (left; reflexivity).
  all: right; eexists; rewrite Hcompile, ?Hstore.
  all: try (left; reflexivity).
  all: right; eexists _, _, _; rewrite Hhandler, Hsend; cbn [app].
  all: try (destruct result0 as [result0|]; cbn [result_id] in Hid; rewrite ?Hid;
            try discriminate Hid; reflexivity).
  all: reflexivity.
Qed.


(** C4, amended: once the subscriber is resolved, a failing selection
    (the explicit identifier is not found) makes the run return normally
    with the collection untouched and exactly one event, a [FAILED] entry
    with the code [LIMIT_PASSED_NOVU_INTEGRATION]; a selection that
    yields no integration does the same with the code
    [SUBSCRIBER_NO_ACTIVE_INTEGRATION], provided the step and its
    template are present. *)
Theorem integration_not_selected (command : SendMessageCommand)
  (subscriber : SubscriberEntity) (s : Store) :
  getSubscriberBySubscriberId co (c_subscriberId command) (c_environmentId command)
    = Some subscriber →
  (∀ step template,
     getIntegration co (integrationQuery command) = Normal None →
     c_step command = Some step →
     st_template step = Some template →
     let entry :=
       noActiveIntegration command
         (prop (get (c_overrides command) "email") "integrationIdentifier") in
     execute co command s
     = {| outcome := Normal tt; store := s; trace := [EvAudit entry] |}
     ∧ d_status entry = FAILED
     ∧ d_detail entry = SUBSCRIBER_NO_ACTIVE_INTEGRATION)
  ∧ (∀ e,
       getIntegration co (integrationQuery command) = Throw e →
       execute co command s
       = {| outcome := Normal tt; store := s;
            trace := [EvAudit (limitPassed command e)] |}
       ∧ d_status (limitPassed command e) = FAILED
       ∧ d_detail (limitPassed command e) = LIMIT_PASSED_NOVU_INTEGRATION).
Proof.
  intros Hs. split.
  - intros step template Hi Hst Ht. unfold execute. by rewrite Hs, Hi, Hst, Ht.
  - intros e Hi. unfold execute. by rewrite Hs, Hi.
Qed.


(** C8, amended: in a run that reaches the reply-to derivation (the
    subscriber is resolved, an integration is selected, the step has a
    template) with reply callbacks enabled, the preconditions are checked
    in this order.  No callback URL: one [WARNING] entry and no reply
    address, whether or not the environment record exists.  A callback
    URL and no environment record: [getReplyTo] raises, the exception is
    the outcome of [execute], and the compiler is not called.  The
    environment found: neither MX record nor inbound-parse domain, the
    MX record alone missing, the domain alone missing, each gives one
    [WARNING] entry and no reply address; both present give the address,
    which reaches the compiler.  Each [WARNING] entry has a code of its
    own, carries the identifier of the created record and is the only
    [WARNING] entry of the run, and the run goes on to call the compiler
    with no reply address. *)
Theorem reply_to_preconditions (command : SendMessageCommand) (s : Store)
  (subscriber : SubscriberEntity) (integration : IntegrationEntity)
  (step : NotificationStepEntity) (template : MessageTemplateEntity)
  (callback : ReplyCallback) :
  getSubscriberBySubscriberId co (c_subscriberId command) (c_environmentId command)
    = Some subscriber →
  getIntegration co (integrationQuery command) = Normal (Some integration) →
  c_step command = Some step →
  st_template step = Some template →
  st_replyCallback step = Some callback →
  truthyP (rc_active callback) = true →
  let r := execute co command s in
  ∃ message,
    creates (repoCalls (trace r)) = [message]
    ∧ let derived := getReplyTo co command (m__id message) (s ++ [message]) in
      let warned code :=
        ∃ entry c,
          derived = {| outcome := Normal None; store := s ++ [message];
                       trace := [EvAudit entry] |}
          ∧ withStatus WARNING (audits (trace r)) = [entry]
          ∧ d_status entry = WARNING
          ∧ d_detail entry = code
          ∧ d_messageId entry = Some (m__id message)
          ∧ compiles (trace r) = [c]
          ∧ si_reply_to_address (ip_step (cp_payload (cc_payload c))) = None in
      (if truthyP (rc_url callback) then
         match Environment_findOne co (c_environmentId command) with
         | None =>
             let raised :=
               PlatformException
                 ("Environment " +:+ c_environmentId command +:+ " is not found") in
             derived = {| outcome := Throw raised; store := s ++ [message]; trace := [] |}
             ∧ outcome r = Throw raised
             ∧ withStatus WARNING (audits (trace r)) = []
             ∧ compiles (trace r) = []
         | Some environment =>
             match e_dns environment ≫= dns_mxRecordConfigured,
                   e_dns environment ≫= dns_inboundParseDomain with
             | Some true, Some (String a domain) =>
                 let address :=
                   "parse+" +:+ c_transactionId command +:+ "-nv-e="
                     +:+ e__id environment +:+ "@" +:+ String a domain in
                 derived = {| outcome := Normal (Some address); store := s ++ [message];
                              trace := [] |}
                 ∧ withStatus WARNING (audits (trace r)) = []
                 ∧ ∃ c, compiles (trace r) = [c]
                        ∧ si_reply_to_address (ip_step (cp_payload (cc_payload c)))
                          = Some address
             | Some true, _ =>
                 warned REPLY_CALLBACK_MISSING_MX_ROUTE_DOMAIN_CONFIGURATION
             | _, Some (String _ _) =>
                 warned REPLY_CALLBACK_MISSING_MX_RECORD_CONFIGURATION
             | _, _ => warned REPLY_CALLBACK_NOT_CONFIGURATION
             end
         end
       else warned REPLY_CALLBACK_MISSING_REPLAY_CALLBACK_URL)
      ∧ NoDup [REPLY_CALLBACK_MISSING_REPLAY_CALLBACK_URL;
               REPLY_CALLBACK_NOT_CONFIGURATION;
               REPLY_CALLBACK_MISSING_MX_RECORD_CONFIGURATION;
               REPLY_CALLBACK_MISSING_MX_ROUTE_DOMAIN_CONFIGURATION].
Proof.
  intros Hs Hi Hst Ht Hcb Hactive r. subst r.
  destruct (replyCallback_of command step callback Hst Hcb) as [Hact Hurl].
  rewrite <- Hact in Hactive. rewrite <- Hurl. clear Hact Hurl.
  set (email := orP (pl_email (c_payload command)) (s_email subscriber)).
  exists (preparedMessage co command integration template email s).
  rewrite (execute_reaches_deliver co _ _ _ _ _ _ Hs Hi Hst Ht). fold email.
  destruct (execute_prepare_run co command subscriber integration template email s)
    as (payload & tl & Hp & Htl).
  pose proof (execute_prepare_payload _ _ _ _ _ _ _ _ _ _ _ Hp)
    as (tenant & actor & layoutId & Hpayload).
  rewrite (execute_deliver_run co _ _ _ _ _ _ _ _ _ _ _ Hp).
  rewrite execute_replyTo_table, Hactive, getReplyTo_run. cbv zeta.
  assert (Hprefix :
            creates (repoCalls
                       (EvCall (HandleTenantExecution (c_job command))
                        :: EvCall (SendSelectedIntegrationExecution (c_job command)
                                     integration)
                        :: tl ++ [EvRepo (RepoCreate
                                            (preparedMessage co command integration
                                               template email s))]))
            = [preparedMessage co command integration template email s]
            ∧ withStatus WARNING
                (audits
                   (EvCall (HandleTenantExecution (c_job command))
                    :: EvCall (SendSelectedIntegrationExecution (c_job command)
                                 integration)
                    :: tl ++ [EvRepo (RepoCreate
                                        (preparedMessage co command integration
                                           template email s))])) = []
            ∧ compiles
                (EvCall (HandleTenantExecution (c_job command))
                 :: EvCall (SendSelectedIntegrationExecution (c_job command)
                              integration)
                 :: tl ++ [EvRepo (RepoCreate
                                     (preparedMessage co command integration
                                        template email s))]) = [])
    by (destruct Htl as [-> | ->]; by repeat split).
  destruct Hprefix as (Hcreated & Hnowarn & Hnocompile).
  split; [|split].
  3:{ repeat (constructor; [set_solver|]). constructor. }
  { destruct (truthyP (replyCallback_url command));
      [destruct (Environment_findOne co _) as [environment|];
       [destruct (truthyB _), (truthyS _)|]|].
    all: rewrite ?prepend_prepend, ?trace_prepend; cbn [trace].
    all: rewrite ?repoCalls_app, ?creates_app, Hcreated; cbn [repoCalls creates omap app].
    all: rewrite ?(proj1 (proj2 (execute_dispatch_quiet _ _ _ _ _ _ _ _ _))); try reflexivity.
    all: by rewrite ?app_nil_r. }
  assert (Hwarned : ∀ code,
    let message := preparedMessage co command integration template email s in
    let run :=
      prepend
        (EvCall (HandleTenantExecution (c_job command))
         :: EvCall (SendSelectedIntegrationExecution (c_job command) integration)
         :: tl ++ [EvRepo (RepoCreate message)])
        (prepend [EvAudit (replyWarning command (m__id message) code)]
           (execute_dispatch co command subscriber integration email
              (mergeOverrides command integration) message None payload
              (s ++ [message]))) in
    ∃ entry c,
      {| outcome := Normal (@None string); store := s ++ [message];
         trace := [EvAudit (replyWarning command (m__id message) code)] |}
      = {| outcome := Normal None; store := s ++ [message]; trace := [EvAudit entry] |}
      ∧ withStatus WARNING (audits (trace run)) = [entry]
      ∧ d_status entry = WARNING
      ∧ d_detail entry = code
      ∧ d_messageId entry = Some (m__id message)
      ∧ compiles (trace run) = [c]
      ∧ si_reply_to_address (ip_step (cp_payload (cc_payload c))) = None).
  { intros code message run. subst run.
    eexists _, _. split; [reflexivity|].
    rewrite !trace_prepend, !audits_app, !withStatus_app, !compiles_app.
    fold message in Hnowarn, Hnocompile. rewrite Hnowarn, Hnocompile.
    destruct (execute_dispatch_quiet command subscriber integration email
                (mergeOverrides command integration) message None payload
                (s ++ [message])) as (-> & _ & ->).
    split; [reflexivity|]. split; [reflexivity|]. split; [reflexivity|].
    split; [reflexivity|]. split; [reflexivity|]. by rewrite Hpayload. }
  destruct (truthyP (replyCallback_url command)); [|apply Hwarned].
  destruct (Environment_findOne co _) as [environment|].
  - destruct (e_dns environment ≫= dns_mxRecordConfigured) as [[|]|],
      (e_dns environment ≫= dns_inboundParseDomain) as [[|a domain]|];
      cbn [truthyB truthyS truthyP String.eqb negb default from_option];
      unfold Datatypes.id;
      try apply Hwarned.
    cbv zeta. split; [reflexivity|].
    rewrite !trace_prepend, !audits_app, !withStatus_app, !compiles_app.
    rewrite Hnowarn, Hnocompile.
    destruct (execute_dispatch_quiet command subscriber integration email
                (mergeOverrides command integration)
                (preparedMessage co command integration template email s)
                (Some (getReplyToAddress (c_transactionId command) (e__id environment)
                         (String a domain)))
                (set_reply_to_address payload
                   (getReplyToAddress (c_transactionId command) (e__id environment)
                      (String a domain)))
                (s ++ [preparedMessage co command integration template email s]))
      as (-> & _ & ->).
    split; [reflexivity|]. eexists. split; [reflexivity|]. reflexivity.
  - cbv zeta. cbn [prepend outcome trace]. rewrite !app_nil_r.
    split; [reflexivity|]. split; [reflexivity|].
    by rewrite Hnowarn, Hnocompile.
Qed.


(** C9: in every run in which the provider is called and its [send]
    succeeds, the run returns normally, exactly one [SUCCESS] entry is
    written, the last entry of the run: it has the code [MESSAGE_SENT],
    carries the identifier of the record the run created and, as its raw
    data, the provider's result.  When the result has a truthy identifier
    the last repository call is the update that sets [identifier] to it,
    and the stored record has this identifier; when it has none, no such
    update is made and the stored record has no identifier. *)
Theorem successful_dispatch_recorded (command : SendMessageCommand) (s : Store)
  (factoryIntegration : IntegrationEntity) (mailFrom : Any) (mailData : MailData)
  (mailHandler : MailHandler) (result : option SendResult) :
  let r := execute co command s in
  EvCall (ProviderSend factoryIntegration mailFrom mailData) ∈ trace r →
  MailFactory_getHandler co factoryIntegration mailFrom = Normal mailHandler →
  mailHandler mailData = Normal result →
  let identifier :=
    match result with
    | Some sent => sr_id sent
    | None => PUndefined
    end in
  ∃ message entry stored saved,
    outcome r = Normal tt
    ∧ creates (repoCalls (trace r)) = [message]
    ∧ withStatus SUCCESS (audits (trace r)) = [entry]
    ∧ last (audits (trace r)) = Some entry
    ∧ d_detail entry = MESSAGE_SENT
    ∧ d_messageId entry = Some (m__id message)
    ∧ d_raw entry = Some (RawResult result)
    ∧ let query :=
        {| q__id := m__id message; q__environmentId := c_environmentId command |} in
      repoCalls (trace r)
      = RepoCreate message :: stored ++
          (if truthyP identifier
           then [RepoUpdate query [("identifier", identifier)]]
           else [])
      ∧ (stored = [] ∨
         ∃ compiled,
           stored = [RepoUpdate query
                       [("subject", PStr (r_subject compiled));
                        ("content", PStr (r_content compiled))]])
      ∧ store r !! length s = Some saved
      ∧ m__id saved = m__id message
      ∧ m_identifier saved = (if truthyP identifier then identifier else PUndefined).
Proof.
  intros r. subst r.
  execute_cases co command s; code_cases; cbn [trace app]; intros Hin Hfound Hok;
    elem_inv Hin.
  all: injection Hin as -> -> ->; rewrite Hhandler in Hfound; injection Hfound as <-;
    rewrite Hok in Hsend; try discriminate Hsend; injection Hsend as <-.
  all: change (match result with Some sent => sr_id sent | None => PUndefined end)
         with (result_id result); cbv zeta; rewrite Hid.
  all: eexists _, _, _, _; (split; [reflexivity|]); (split; [reflexivity|]).
  all: (split; [reflexivity|]); (split; [reflexivity|]); (split; [reflexivity|]).
  all: (split; [reflexivity|]); (split; [reflexivity|]).
  all: cbn [store trace repoCalls omap option_bind mbind].
  all: pose proof (matches_prepared command integration template
                     (orP (pl_email (c_payload command)) (s_email subscriber)) s) as Hm;
    cbv zeta in Hm.
  all: first
    [ split; [exact (eq_refl : _ = _ :: [] ++ _) |]; split; [by left|]
    | split; [exact (eq_refl : _ = _ :: [_] ++ _) |]; split; [right; by eexists|] ].
  all: rewrite ?(lookup_updateMany _ _ _ (length s) _ (lookup_created _ _) Hm).
  all: try (erewrite lookup_updateMany;
            [| apply lookup_updateMany; [apply lookup_created | exact Hm]
             | by rewrite matches_content ]).
  all: try (erewrite lookup_updateMany; [| apply lookup_created | exact Hm ]).
  all: rewrite ?lookup_created.
  all: split; [reflexivity|]; split; reflexivity.
Qed.


End Claims.

(** ** The pipeline at the fixtures *)



Lemma layout_override_not_found_witness :
  let r := execute Fixture.co Fixture.unknownLayout [] in
  truthy (get (c_overrides Fixture.unknownLayout) "layoutIdentifier") = true
  ∧ ∃ entry,
      withDetail LAYOUT_NOT_FOUND (audits (trace r)) = [entry]
      ∧ d_status entry = FAILED
      ∧ compiles (trace r) ≠ [].
Proof.
  assert (Hsupplied :
            truthy (get (c_overrides Fixture.unknownLayout) "layoutIdentifier") = true)
    by (vm_compute; reflexivity).
  destruct (layout_override_not_found Fixture.co Fixture.unknownLayout []
              Fixture.subscriber Fixture.integration Fixture.step Fixture.template
              eq_refl eq_refl eq_refl eq_refl Hsupplied eq_refl)
    as (entry & message & rest & _ & Hstatus & _ & _ & _ & Hone & _).
  split; [exact Hsupplied|].
  exists entry. split; [exact Hone|]. split; [exact Hstatus | discriminate].
Defined.

(** The entry for a layout that does not resolve has the status [FAILED];
    the run goes on to a successful dispatch and writes no [WARNING]
    entry at all. *)
Lemma layout_not_found_is_failed :
  let r := execute Fixture.co Fixture.unknownLayout [] in
  Layout_findOne Fixture.co
    {| lq__environmentId := "env";
       lq_identifier := get (c_overrides Fixture.unknownLayout) "layoutIdentifier" |}
    = None
  ∧ (λ d, (d_detail d, d_status d)) <$> audits (trace r)
    = [(LAYOUT_NOT_FOUND, FAILED); (MESSAGE_CREATED, PENDING); (MESSAGE_SENT, SUCCESS)]
  ∧ withStatus WARNING (audits (trace r)) = [].
Proof. vm_compute. by repeat split. Qed.

(** The dispatch succeeds, the provider returns no identifier, and the
    record is updated once, not twice; with no integration it is not
    updated at all. *)
Lemma lifecycle_single_update :
  let r := execute Fixture.coNoId Fixture.plain [] in
  outcome r = Normal tt
  ∧ d_status <$> audits (trace r) = [PENDING; SUCCESS]
  ∧ length (repoUpdates (repoCalls (trace r))) = 1
  ∧ length (repoUpdates (repoCalls (trace (execute Fixture.coNone Fixture.plain []))))
    = 0.
Proof. vm_compute. by repeat split. Qed.

Lemma integration_not_selected_witness :
  (execute Fixture.coNone Fixture.plain []
   = {| outcome := Normal tt; store := [];
        trace := [EvAudit (noActiveIntegration Fixture.plain undefined)] |})
  ∧ (execute Fixture.coLimit Fixture.plain []
     = {| outcome := Normal tt; store := [];
          trace := [EvAudit (limitPassed Fixture.plain (ExternalError "limit"))] |}).
Proof.
  split.
  - exact (proj1 (proj1 (integration_not_selected Fixture.coNone Fixture.plain
                           Fixture.subscriber [] eq_refl)
                    Fixture.step Fixture.template eq_refl eq_refl eq_refl)).
  - exact (proj1 (proj2 (integration_not_selected Fixture.coLimit Fixture.plain
                           Fixture.subscriber [] eq_refl)
                    (ExternalError "limit") eq_refl)).
Defined.

(** No integration is selected, the step has no template, and the run
    raises without writing any entry. *)
Lemma no_integration_without_template_raises :
  getSubscriberBySubscriberId Fixture.coNone (c_subscriberId Fixture.noTemplate)
    (c_environmentId Fixture.noTemplate) = Some Fixture.subscriber
  ∧ getIntegration Fixture.coNone (integrationQuery Fixture.noTemplate) = Normal None
  ∧ execute Fixture.coNone Fixture.noTemplate []
    = {| outcome := Throw (PlatformException "Email channel template not found");
         store := []; trace := [] |}.
Proof. by repeat split. Qed.

Lemma reply_to_preconditions_witness :
  Environment_findOne Fixture.co (c_environmentId Fixture.withReply) = None
  ∧ outcome (execute Fixture.co Fixture.withReply [])
    = Throw (PlatformException "Environment env is not found")
  ∧ compiles (trace (execute Fixture.co Fixture.withReply [])) = [].
Proof.
  destruct (reply_to_preconditions Fixture.co Fixture.withReply []
              Fixture.subscriber Fixture.integration
              {| st_template := Some Fixture.template;
                 st_replyCallback :=
                   Some {| rc_active := PBool true; rc_url := PStr "https://x.com/reply" |} |}
              Fixture.template
              {| rc_active := PBool true; rc_url := PStr "https://x.com/reply" |}
              eq_refl eq_refl eq_refl eq_refl eq_refl eq_refl)
    as (message & _ & Hcases & _).
  cbv zeta in Hcases. destruct Hcases as (_ & Hout & _ & Hnone).
  split; [reflexivity|]. split; [exact Hout | exact Hnone].
Defined.

(** Reply callbacks are enabled, there is no environment record, and the
    run does not raise: without a callback URL the environment is not
    looked up, the run writes the [WARNING] entry of the missing URL and
    goes on to a successful dispatch. *)
Lemma missing_environment_not_raised :
  let r := execute Fixture.co Fixture.withReplyNoUrl [] in
  truthyP (replyCallback_active Fixture.withReplyNoUrl) = true
  ∧ Environment_findOne Fixture.co (c_environmentId Fixture.withReplyNoUrl) = None
  ∧ outcome r = Normal tt
  ∧ (λ d, (d_detail d, d_status d)) <$> audits (trace r)
    = [(REPLY_CALLBACK_MISSING_REPLAY_CALLBACK_URL, WARNING);
       (MESSAGE_CREATED, PENDING); (MESSAGE_SENT, SUCCESS)].
Proof. vm_compute. by repeat split. Qed.

Lemma successful_dispatch_recorded_witness :
  let r := execute Fixture.co Fixture.plain [] in
  outcome r = Normal tt
  ∧ (∃ entry,
       withStatus SUCCESS (audits (trace r)) = [entry]
       ∧ d_raw entry = Some (RawResult (Some {| sr_id := PStr "p-1" |})))
  ∧ ∃ saved, store r !! 0 = Some saved ∧ m_identifier saved = PStr "p-1".
Proof.
  edestruct successful_dispatch_recorded
    with (co := Fixture.co) (command := Fixture.plain) (s := @nil MessageEntity)
         (mailHandler := λ _ : MailData, Normal (Some {| sr_id := PStr "p-1" |}))
         (result := Some {| sr_id := PStr "p-1" |})
    as (message & entry & stored & saved & Hout & _ & Hone & _ & _ & _ & Hraw
        & _ & _ & Hsaved & _ & Hident).
  - apply (list_elem_of_lookup_2 _ 6). reflexivity.
  - reflexivity.
  - reflexivity.
  - split; [exact Hout|].
    split; [exists entry; split; [exact Hone | exact Hraw]|].
    exists saved. split; [exact Hsaved | exact Hident].
Defined.

(** * Further properties *)

(** ** [createMailData], continued *)

(** X1: [createMailData] is idempotent: building the mail data again from
    its own result, with the same overrides, changes nothing. *)
Theorem createMailData_idempotent {D} (options mail : IEmailOptions D)
  (overrides : gmap string Any) :
  createMailData options overrides = Normal mail →
  createMailData mail overrides = Normal mail.
Proof.
  unfold createMailData.
  destruct (spread (Js.or (get overrides "to") (VArr []))) as [extra|]; [|done].
  intros [= <-]. cbn [baseRecipients to from ipPoolName subject html attachments id
                      replyTo notificationDetails payloadDetails].
  rewrite !foldl_filterDuplicate. cbn [app].
  change (dedup_from [] ?l) with (dedup_first_seen l).
  rewrite dedup_first_seen_again.
  unfold Js.or. by destruct (truthy (get overrides "from")),
    (truthy (get overrides "ipPoolName")).
Qed.

Lemma createMailData_idempotent_witness :
  ∃ mail,
    createMailData Fixture.options
      {[ "to" := VArr [PStr "b@x.com"; PStr "a@x.com"]; "from" := str "o@x.com" ]}
    = Normal mail
    ∧ createMailData mail
        {[ "to" := VArr [PStr "b@x.com"; PStr "a@x.com"]; "from" := str "o@x.com" ]}
      = Normal mail.
Proof.
  eexists. split; [vm_compute; reflexivity|].
  apply (createMailData_idempotent Fixture.options). vm_compute. reflexivity.
Defined.

(** X2: [createMailData] fails exactly when the override map holds under
    [to] a value that is neither falsy nor iterable: [true], a number
    other than zero, or an object.  A falsy [to] ([undefined], [null],
    [false], [0], the empty string) counts as no override. *)
Theorem createMailData_fails_iff {D} (options : IEmailOptions D)
  (overrides : gmap string Any) :
  (∃ e, createMailData options overrides = Throw e)
  ↔ (get overrides "to" = VPrim (PBool true)
     ∨ (∃ z, z ≠ 0%Z ∧ get overrides "to" = VPrim (PNum z))
     ∨ ∃ o, get overrides "to" = VObj o).
Proof.
  unfold createMailData, Js.or.
  destruct (get overrides "to") as [[| |[]|z|s]|l|o]; cbn.
  all: try destruct (Z.eqb_spec z 0) as [->|Hz]; cbn.
  all: try destruct (String.eqb s ""); cbn.
  all: naive_solver.
Qed.

Lemma codePoints_nil (s : string) : codePoints s = [] → s = "".
Proof.
  destruct s as [|c s]; [done|]. cbn [codePoints].
  destruct (codePoints s); [done|]. by destruct (continued s).
Qed.

Lemma joined_codePoints (s : string) : joined (codePoints s) = s.
Proof.
  induction s as [|c s IH]; [done|]. cbn [codePoints].
  destruct (codePoints s) as [|g gs] eqn:Hg.
  - by rewrite (codePoints_nil s Hg).
  - cbn [joined foldr] in IH |- *. destruct (continued s); cbn [joined foldr];
      by rewrite <- IH.
Qed.

Lemma codePoints_continuation (c : Ascii.ascii) (rest t : string) :
  forallb continues (String.list_ascii_of_string rest) = true →
  continued t = false →
  codePoints (String c (rest +:+ t)) = String c rest :: codePoints t.
Proof.
  revert c. induction rest as [|d rest IH]; intros c Hrest Ht.
  - change ("" +:+ t) with t. cbn [codePoints]. rewrite Ht.
    by destruct (codePoints t).
  - cbn [String.list_ascii_of_string forallb] in Hrest.
    apply andb_true_iff in Hrest as [Hd Hrest].
    change (String d rest +:+ t) with (String d (rest +:+ t)).
    change (codePoints (String c (String d (rest +:+ t))))
      with (match codePoints (String d (rest +:+ t)) with
            | g :: gs =>
                if continued (String d (rest +:+ t)) then String c g :: gs
                else String c EmptyString :: g :: gs
            | [] => [String c EmptyString]
            end).
    rewrite (IH d Hrest Ht). cbn [continued]. by rewrite Hd.
Qed.

Lemma continued_joined (l : list string) :
  Forall (λ g, isCodePoint g = true) l → continued (joined l) = false.
Proof.
  intros [|[|c rest] l' Hg _]; [done|done|].
  cbn [isCodePoint] in Hg. apply andb_true_iff in Hg as [Hc _].
  cbn [joined foldr]. change (String c rest +:+ ?t) with (String c (rest +:+ t)).
  cbn [continued]. by destruct (continues c).
Qed.

Lemma codePoints_joined (l : list string) :
  Forall (λ g, isCodePoint g = true) l → codePoints (joined l) = l.
Proof.
  induction 1 as [|[|c rest] l Hg Hl IH]; [done|done|].
  cbn [isCodePoint] in Hg. apply andb_true_iff in Hg as [_ Hrest].
  change (joined (String c rest :: l)) with (String c (rest +:+ joined l)).
  rewrite codePoints_continuation; [by rewrite IH | done | by apply continued_joined].
Qed.

(** X3: a [to] override that is a single non-empty string is spread like
    any iterable, by code points: the recipients are the base ones
    followed by the code points of the string, one recipient each, kept
    at their first occurrence.  The string is the concatenation of what
    is added, and any way of writing it as a sequence of code points is
    what is added. *)
Theorem createMailData_to_string {D} (options : IEmailOptions D)
  (overrides : gmap string Any) (s : string) :
  s ≠ "" →
  overrides !! "to" = Some (str s) →
  let base :=
    match to options with
    | ToOne address => [address]
    | ToMany addresses => addresses
    end in
  ∃ mail extra,
    createMailData options overrides = Normal mail
    ∧ to mail = ToMany (dedup_first_seen (base ++ (PStr <$> extra)))
    ∧ joined extra = s
    ∧ ∀ l, Forall (λ g, isCodePoint g = true) l → joined l = s → extra = l.
Proof.
  intros Hs Hto base.
  assert (Hbase : base = baseRecipients options)
    by (unfold base, baseRecipients; by destruct (to options)).
  clearbody base. subst base.
  destruct (createMailData_to options overrides (PStr <$> codePoints s))
    as (mail & Hmail & Hrecipients).
  { unfold get, Js.or. rewrite Hto. cbn.
    destruct (String.eqb_spec s ""); [done|reflexivity]. }
  exists mail, (codePoints s). split; [exact Hmail|]. split; [exact Hrecipients|].
  split; [apply joined_codePoints|].
  intros l Hl <-. by apply codePoints_joined.
Qed.

Lemma createMailData_to_string_witness :
  ∃ mail,
    createMailData Fixture.options {[ "to" := str "é@x" ]} = Normal mail
    ∧ to mail = ToMany [PStr "a@x.com"; PStr "é"; PStr "@"; PStr "x"].
Proof.
  destruct (createMailData_to_string Fixture.options {[ "to" := str "é@x" ]} "é@x")
    as (mail & extra & Hmail & Hto & _ & Hsplit); [done | reflexivity |].
  exists mail. split; [exact Hmail|].
  rewrite Hto, (Hsplit ["é"; "@"; "x"]); [reflexivity | by repeat constructor | reflexivity].
Defined.

(** X4: what [createMailData] keeps of the base options: [subject],
    [html], [attachments], [id], [replyTo], [notificationDetails] and
    [payloadDetails] always; [from] and [ipPoolName] unless the override
    map holds a truthy value for them.  [customData] is the override's,
    or the empty object. *)
Theorem createMailData_keeps {D} (options : IEmailOptions D)
  (overrides : gmap string Any) :
  match createMailData options overrides with
  | Normal mail =>
      subject mail = subject options
      ∧ html mail = html options
      ∧ attachments mail = attachments options
      ∧ id mail = id options
      ∧ replyTo mail = replyTo options
      ∧ notificationDetails mail = notificationDetails options
      ∧ payloadDetails mail = payloadDetails options
      ∧ from mail = (if truthy (get overrides "from")
                     then get overrides "from" else from options)
      ∧ ipPoolName mail = (if truthy (get overrides "ipPoolName")
                           then get overrides "ipPoolName" else ipPoolName options)
      ∧ customData mail = (if truthy (get overrides "customData")
                           then get overrides "customData" else VObj ∅)
  | Throw _ => True
  end.
Proof.
  unfold createMailData.
  destruct (spread (Js.or (get overrides "to") (VArr []))); [|done].
  by repeat split.
Qed.

(** ** The merged overrides, continued *)

(** X5: when the channel-scoped and the provider-scoped overrides are
    objects (or are missing, which counts as the empty object), the
    merged map is their union, the provider-scoped map taking precedence:
    a key of one side alone keeps its value, and no key is invented. *)
Theorem mergeOverrides_union (command : SendMessageCommand)
  (integration : IntegrationEntity) (channel provider : option (gmap string Any)) :
  c_overrides command !! "email" = VObj <$> channel →
  c_overrides command !! i_providerId integration = VObj <$> provider →
  mergeOverrides command integration = default ∅ provider ∪ default ∅ channel.
Proof.
  intros Hc Hp. apply map_eq. intros k.
  unfold mergeOverrides. rewrite Object_assign_two. unfold get. rewrite Hc, Hp.
  rewrite lookup_union.
  destruct channel as [channel|], provider as [provider|]; cbn;
    rewrite ?lookup_empty;
    repeat match goal with |- context [?m !! k] => destruct (m !! k) end; done.
Qed.

Lemma mergeOverrides_union_witness :
  mergeOverrides
    (Fixture.command {[ "email" := VObj {[ "cc" := VArr [PStr "c@x.com"] ]} ]}
       Fixture.step (PStr "a@x.com"))
    Fixture.integration
  = {[ "cc" := VArr [PStr "c@x.com"] ]}.
Proof.
  rewrite (mergeOverrides_union _ _ (Some {[ "cc" := VArr [PStr "c@x.com"] ]}) None);
    [|reflexivity|reflexivity].
  cbn. by rewrite (left_id_L ∅ (∪)).
Defined.

(** ** [buildFactoryIntegration] *)

(** X6: the integration handed to the mail factory differs from the
    selected one in the sender name only, and only for a sender name that
    is a non-empty string; any other sender name (missing, empty, not a
    string) leaves the integration as selected.  Building it twice is
    building it once. *)
Theorem buildFactoryIntegration_senderName (integration : IntegrationEntity)
  (senderName : Prim) :
  let built := buildFactoryIntegration integration senderName in
  i__id built = i__id integration
  ∧ i_identifier built = i_identifier integration
  ∧ i_providerId built = i_providerId integration
  ∧ cr_from (i_credentials built) = cr_from (i_credentials integration)
  ∧ cr_senderName (i_credentials built)
    = match senderName with
      | PStr (String c s) => PStr (String c s)
      | _ => cr_senderName (i_credentials integration)
      end
  ∧ buildFactoryIntegration built senderName = built.
Proof.
  destruct integration as [? ? ? []].
  destruct senderName as [| |[]|z|[|c s]]; cbn; repeat split; try reflexivity.
  all: unfold buildFactoryIntegration; cbn; try reflexivity.
  all: by destruct (Z.eqb z 0).
Qed.

(** ** [getReplyToAddress], continued *)

Lemma append_cons (x : Ascii.ascii) (a b : string) :
  String x a +:+ b = String x (a +:+ b).
Proof. reflexivity. Qed.

Lemma append_assoc (a b c : string) : (a +:+ b) +:+ c = a +:+ (b +:+ c).
Proof. induction a as [|x a IH]; [done|]. rewrite !append_cons. by rewrite IH. Qed.

Lemma length_append (a b : string) :
  String.length (a +:+ b) = String.length a + String.length b.
Proof. induction a as [|x a IH]; [done|]. rewrite append_cons. cbn. by rewrite IH. Qed.

Lemma append_cancel_r (a b s : string) : a +:+ s = b +:+ s → a = b.
Proof.
  revert b. induction a as [|x a IH]; intros [|y b] H; rewrite ?append_cons in H;
    change ("" +:+ s) with s in H.
  - done.
  - apply (f_equal String.length) in H. simpl in H. rewrite length_append in H. lia.
  - apply (f_equal String.length) in H. simpl in H. rewrite length_append in H. lia.
  - injection H as -> H. f_equal. by apply IH.
Qed.

Lemma occurs_append (c : Ascii.ascii) (a b : string) :
  occurs c (a +:+ b) = occurs c a || occurs c b.
Proof.
  induction a as [|x a IH]; [done|]. rewrite append_cons. cbn. rewrite IH.
  by destruct (Ascii.eqb c x).
Qed.

(** A string is cut in one way only at the first occurrence of a
    character. *)
Lemma append_split (c : Ascii.ascii) (a b r1 r2 : string) :
  occurs c a = false → occurs c b = false →
  a +:+ String c r1 = b +:+ String c r2 → a = b ∧ r1 = r2.
Proof.
  revert b. induction a as [|x a IH]; intros [|y b] Ha Hb H; rewrite ?append_cons in H;
    change ("" +:+ ?s) with s in H; cbn in Ha, Hb.
  - by injection H.
  - injection H as -> _. by rewrite Ascii.eqb_refl in Hb.
  - injection H as -> _. by rewrite Ascii.eqb_refl in Ha.
  - injection H as -> H.
    apply orb_false_iff in Ha as [_ Ha]. apply orb_false_iff in Hb as [_ Hb].
    destruct (IH b Ha Hb H) as [-> ->]. done.
Qed.

Lemma getReplyToAddress_cut (t e d : string) :
  getReplyToAddress t e d
  = "parse+" +:+ ((t +:+ "-nv-e") +:+ String (charOf "=") (e +:+ String (charOf "@") d)).
Proof. unfold getReplyToAddress. cbv zeta. by rewrite append_assoc. Qed.

(** X7: the reply-to address can be decoded.  For transaction identifiers
    without [=] and environment identifiers without [@], two addresses
    are equal only if they are built from the same transaction
    identifier, the same environment identifier and the same domain. *)
Theorem getReplyToAddress_decodable (t1 e1 d1 t2 e2 d2 : string) :
  occurs (charOf "=") t1 = false → occurs (charOf "=") t2 = false →
  occurs (charOf "@") e1 = false → occurs (charOf "@") e2 = false →
  getReplyToAddress t1 e1 d1 = getReplyToAddress t2 e2 d2 →
  t1 = t2 ∧ e1 = e2 ∧ d1 = d2.
Proof.
  intros Ht1 Ht2 He1 He2 H. rewrite !getReplyToAddress_cut in H.
  apply (inj (String.append "parse+")) in H.
  apply append_split in H as [Ht He];
    [|by rewrite occurs_append, ?Ht1, ?Ht2..].
  apply append_cancel_r in Ht as ->.
  apply append_split in He as [-> ->]; done.
Qed.

Lemma getReplyToAddress_decodable_witness :
  getReplyToAddress "tx123" "env456" "reply.example.com"
  ≠ getReplyToAddress "tx123-nv-e" "env456" "reply.example.com".
Proof.
  intros H.
  destruct (getReplyToAddress_decodable "tx123" "env456" "reply.example.com"
              "tx123-nv-e" "env456" "reply.example.com"
              eq_refl eq_refl eq_refl eq_refl H) as [Ht _].
  discriminate Ht.
Defined.

(** ** [useFetchNotifications] *)

(** X8: whatever options the caller passes, the query is enabled exactly
    by the session flag and pages with the hook's [getNextPageParam]; every
    other option of the caller reaches [useInfiniteQuery] unchanged, a
    missing page parameter asks for page 0, and the query is the last
    component of the query key. *)
Theorem useFetchNotifications_options {V Q R} (options : gmap string V)
  (isSessionInitialized getNextPageParam : V)
  (getNotificationsList : nat → Q → R) (query : Q) :
  let passed :=
    UseFetchNotifications.queryOptions options isSessionInitialized getNextPageParam in
  passed !! "enabled" = Some isSessionInitialized
  ∧ passed !! "getNextPageParam" = Some getNextPageParam
  ∧ delete "enabled" (delete "getNextPageParam" passed)
    = delete "enabled" (delete "getNextPageParam" options)
  ∧ UseFetchNotifications.fetchPage getNotificationsList query None
    = getNotificationsList 0 query
  ∧ ∀ key : list Q, last (UseFetchNotifications.queryKey key query) = Some query.
Proof.
  cbv zeta. unfold UseFetchNotifications.queryOptions. repeat split.
  - by rewrite lookup_insert_ne, lookup_insert_eq.
  - by rewrite lookup_insert_eq.
  - apply map_eq. intros k. rewrite !lookup_delete, !lookup_insert.
    by repeat case_decide.
  - intros key. apply last_snoc.
Qed.

(** ** The pipeline, continued *)

Section Pipeline.

Context (co : Collaborators).






(** X10: when the compiler is called and fails, or the inlining of the
    compiled HTML fails, the run calls the fallback with the message of
    the error, as its last step, and returns normally; the compiler was
    called once, the provider is not called, and neither the
    [MESSAGE_CREATED] entry nor a [SUCCESS] entry is written. *)
Theorem compilation_failure_stops (command : SendMessageCommand) (s : Store)
  (c : CompileEmailTemplateCommand) (error : Exn) :
  let r := execute co command s in
  EvCall (Compile c) ∈ trace r →
  (compileEmailTemplate co c = Throw error
   ∨ ∃ compiled, compileEmailTemplate co c = Normal compiled
                 ∧ inlineCss co (r_html compiled) = Throw error) →
  let message :=
    match error with
    | PlatformException m | TypeError m | ExternalError m => m
    end in
  outcome r = Normal tt
  ∧ compiles (trace r) = [c]
  ∧ fallbacks (trace r) = [(c_job command, message)]
  ∧ last (trace r) = Some (EvCall (SendErrorHandlebars (c_job command) message))
  ∧ sends (trace r) = []
  ∧ withDetail MESSAGE_CREATED (audits (trace r)) = []
  ∧ withStatus SUCCESS (audits (trace r)) = [].
Proof.
  intros r. subst r.
  execute_cases co command s; code_cases; cbn [trace app]; intros Hin Hfails;
    elem_inv Hin.
  all: injection Hin as ->.
  all: destruct Hfails as [Hfails|(compiled & Hcompiled & Hfails)].
  all: first [rewrite Hfails in Hcompile | rewrite Hcompiled in Hcompile];
    try discriminate Hcompile; injection Hcompile as <-.
  all: try (rewrite Hfails in Hinline; try discriminate Hinline;
            injection Hinline as <-).
  all: change (match ?x with
               | PlatformException m | TypeError m | ExternalError m => m
               end) with (message_of x); cbv zeta.
  all: by repeat split.
Qed.

(** X11: when the provider is called and its [send] fails, the run still
    returns normally: the failure is reported once, with the code
    [MAIL_PROVIDER_DELIVERY_ERROR] and the error, and recorded by one
    entry with the code [PROVIDER_ERROR], the last entry of the run: its
    status is [FAILED], it carries the identifier of the record the run
    created and, as its raw data, the error.  No [SUCCESS] entry is
    written and the identifier of the record is not updated. *)
Theorem provider_failure_recorded (command : SendMessageCommand) (s : Store)
  (fi : IntegrationEntity) (mf : Any) (mail : MailData) (mailHandler : MailHandler)
  (err : Exn) :
  let r := execute co command s in
  EvCall (ProviderSend fi mf mail) ∈ trace r →
  MailFactory_getHandler co fi mf = Normal mailHandler →
  mailHandler mail = Throw err →
  ∃ message entry stored,
    outcome r = Normal tt
    ∧ creates (repoCalls (trace r)) = [message]
    ∧ withDetail PROVIDER_ERROR (audits (trace r)) = [entry]
    ∧ last (audits (trace r)) = Some entry
    ∧ d_status entry = FAILED
    ∧ d_messageId entry = Some (m__id message)
    ∧ d_raw entry = Some (RawError err)
    ∧ withStatus SUCCESS (audits (trace r)) = []
    ∧ errorReports (trace r) = [MAIL_PROVIDER_DELIVERY_ERROR]
    ∧ EvCall (SendErrorStatus message "error" "mail_unexpected_error"
                "Error while sending email with provider"
                MAIL_PROVIDER_DELIVERY_ERROR (Some err)) ∈ trace r
    ∧ repoCalls (trace r) = RepoCreate message :: stored
    ∧ (stored = [] ∨
       ∃ compiled,
         stored = [RepoUpdate
                     {| q__id := m__id message;
                        q__environmentId := c_environmentId command |}
                     [("subject", PStr (r_subject compiled));
                      ("content", PStr (r_content compiled))]]).
Proof.
  intros r. subst r.
  execute_cases co command s; code_cases; cbn [trace app]; intros Hin Hfound Hfail;
    elem_inv Hin.
  all: injection Hin as -> -> ->; rewrite Hhandler in Hfound; injection Hfound as <-;
    rewrite Hfail in Hsend; try discriminate Hsend; injection Hsend as <-.
  all: eexists _, _, _; repeat (split; [reflexivity|]).
  all: split; [set_solver|]; split; [reflexivity|].
  all: first [ by left | right; by eexists ].
Qed.

(** X12: the milestones of a run come in one order and at most once
    each: the record is created, then the compiler is called, then
    either the fallback is run or the provider is called.  A run stops
    after any of them, and none comes without the ones before it. *)
Theorem at_most_once (command : SendMessageCommand) (s : Store) :
  let m := milestones (trace (execute co command s)) in
  m = []
  ∨ m = [Created]
  ∨ m = [Created; Compiled]
  ∨ m = [Created; Compiled; FellBack]
  ∨ m = [Created; Compiled; Sent].
Proof.
  cbv zeta. execute_cases co command s; cbn.
  all: first [ by left | by (right; left) | by (right; right; left)
             | by (right; right; right; left) | by (right; right; right; right) ].
Qed.

(** X13: in every run, an audit entry that names a message is written
    after the Message record with that identifier has been created. *)
Theorem record_before_entries (command : SendMessageCommand) (s : Store) :
  recordFirst [] (trace (execute co command s)).
Proof.
  execute_cases co command s; entries_unfold; cbn; repeat split; set_solver.
Qed.

(** X14: the audit trail of a run has one of two shapes.  Either it is
    empty or a single [FAILED] entry naming no message (no integration,
    or the selection failed); or it is, in this order, at most one
    [LAYOUT_NOT_FOUND] entry, at most one reply-to [WARNING], and then
    nothing, or the [MESSAGE_CREATED] entry alone, or that entry followed
    by exactly one terminal entry: missing address, message sent, or
    provider error. *)
Theorem audit_trail_shape (command : SendMessageCommand) (s : Store) :
  let a := audits (trace (execute co command s)) in
  a = []
  ∨ (∃ e, a = [limitPassed command e])
  ∨ a = [noActiveIntegration command
           (prop (get (c_overrides command) "email") "integrationIdentifier")]
  ∨ ∃ message layout reply final,
      a = layout ++ reply ++ final
      ∧ (layout = [] ∨ layout = [layoutNotFound command])
      ∧ (reply = [] ∨
         ∃ code, code ∈ replyCodes
                 ∧ reply = [replyWarning command (m__id message) code])
      ∧ (final = []
         ∨ (∃ payload, final = [messageCreated co command message payload])
         ∨ (∃ payload terminal,
              final = [messageCreated co command message payload; terminal]
              ∧ (terminal = missingAddress command message
                 ∨ (∃ result, terminal = messageSent command message result)
                 ∨ (∃ e, terminal = providerError command message e)))).
Proof.
  cbv zeta. execute_cases co command s; cbn [trace app audits omap option_bind mbind].
  all: try (by left).
  all: try (right; left; eexists; reflexivity).
  all: try (right; right; left; reflexivity).
  all: right; right; right; eexists _.
  all: first
    [ solve [ exists [], [], []; repeat split; eauto 12 ]
    | solve [ eexists [], [], [_]; split; [reflexivity|]; repeat split; eauto 12 ]
    | solve [ eexists [], [], [_; _]; split; [reflexivity|]; repeat split; eauto 12 ]
    | solve [ eexists [_], [], []; split; [reflexivity|]; repeat split; eauto 12 ]
    | solve [ eexists [_], [], [_]; split; [reflexivity|]; repeat split; eauto 12 ]
    | solve [ eexists [_], [], [_; _]; split; [reflexivity|]; repeat split; eauto 12 ]
    | solve [ eexists [], [_], []; split; [reflexivity|]; repeat split; eauto 12 ]
    | solve [ eexists [], [_], [_]; split; [reflexivity|]; repeat split; eauto 12 ]
    | solve [ eexists [], [_], [_; _]; split; [reflexivity|]; repeat split; eauto 12 ]
    | solve [ eexists [_], [_], []; split; [reflexivity|]; repeat split; eauto 12 ]
    | solve [ eexists [_], [_], [_]; split; [reflexivity|]; repeat split; eauto 12 ]
    | solve [ eexists [_], [_], [_; _]; split; [reflexivity|]; repeat split; eauto 12 ] ].
  Unshelve.
  all: exact (preparedMessage co command integration template PUndefined s).
Qed.

End Pipeline.

(** ** What reaches the provider *)

Section Dispatch.

Context (co : Collaborators).

Lemma execute_replyTo_payload (command : SendMessageCommand) (message : MessageEntity)
  (payload payload' : CompilePayload) (s s' : Store) (replyToAddress : option string)
  (t : list Event) :
  execute_replyTo co command message payload s
    = {| outcome := Normal (replyToAddress, payload'); store := s'; trace := t |} →
  (replyToAddress = None ∧ payload' = payload)
  ∨ ∃ environment,
      Environment_findOne co (c_environmentId command) = Some environment
      ∧ replyToAddress
        = Some (getReplyToAddress (c_transactionId command) (e__id environment)
                  (default "" (e_dns environment ≫= dns_inboundParseDomain)))
      ∧ payload'
        = set_reply_to_address payload
            (getReplyToAddress (c_transactionId command) (e__id environment)
               (default "" (e_dns environment ≫= dns_inboundParseDomain))).
Proof.
  rewrite execute_replyTo_table. cbv zeta.
  destruct (truthyP (replyCallback_active command)); [|intros [= <- <- _ _]; by left].
  destruct (truthyP (replyCallback_url command)); [|intros [= <- <- _ _]; by left].
  destruct (Environment_findOne co _) as [environment|]; [|done].
  destruct (truthyB _), (truthyS _); intros [= <- <- _ _]; try (by left).
  right. by exists environment.
Qed.

(** The request handed to the compiler carries the payload of the
    command and the reply address derived for the run, if any. *)
Lemma compile_request_carries (command : SendMessageCommand)
  (subscriber : SubscriberEntity) (integration : IntegrationEntity)
  (template : MessageTemplateEntity) (email : Prim) (s s1 s2 : Store)
  (message : MessageEntity) (overrides : gmap string Any)
  (payload payload' : CompilePayload) (replyToAddress : option string)
  (t1 t2 : list Event) :
  execute_prepare co command subscriber integration template email s
    = {| outcome := Normal (message, overrides, payload); store := s1; trace := t1 |} →
  execute_replyTo co command message payload s1
    = {| outcome := Normal (replyToAddress, payload'); store := s2; trace := t2 |} →
  si_reply_to_address (ip_step (cp_payload payload')) = replyToAddress
  ∧ ip_payload (cp_payload payload') = c_payload command
  ∧ ip_subscriber (cp_payload payload') = subscriber.
Proof.
  intros Hp Hr.
  apply (execute_prepare_payload co) in Hp as (tenant & actor & layoutId & ->).
  apply execute_replyTo_payload in Hr as [[-> ->]|(environment & _ & -> & ->)];
    by repeat split.
Qed.

Lemma copyAttachment_id (l : list IAttachmentOptions) : copyAttachment <$> l = l.
Proof.
  induction l as [|[] l IH]; [done|]. cbn [fmap list_fmap] in *. by rewrite IH.
Qed.

(** The mail handed to the provider, field by field. *)
Lemma dispatched_mail (command : SendMessageCommand) (subscriber : SubscriberEntity)
  (integration : IntegrationEntity) (message : MessageEntity) (email : Prim)
  (title body : string) (mapped : option (list IAttachmentOptions))
  (replyToAddress : option string) (payload : CompilePayload) (base : MailData) :
  mapAttachments (pl_attachments (c_payload command)) = Normal mapped →
  createMailData
    (baseMailData command subscriber integration message email title body mapped
       replyToAddress)
    (mergeOverrides command integration) = Normal base →
  let mail := overrideMailData co command integration payload base in
  let supplied := prop (get (c_overrides command) "email") "replyTo" in
  from mail
  = Js.or (get (mergeOverrides command integration) "from")
      (VPrim (orP (cr_from (i_credentials integration)) (PStr "no-reply@novu.co")))
  ∧ id mail = Some (m__id message)
  ∧ subject mail = title
  ∧ html mail = body
  ∧ pl_attachments (c_payload command)
    = match attachments mail with
      | Some l => AttachmentArray l
      | None => NoAttachments
      end
  ∧ notificationDetails mail
    = Some {| nd_transactionId := c_transactionId command;
              nd_workflowIdentifier := c_identifier command;
              nd_subscriberId := s_subscriberId subscriber |}
  ∧ (∃ extra,
       spread (Js.or (get (mergeOverrides command integration) "to") (VArr []))
       = Some extra
       ∧ to mail = ToMany (email :: dedup_from [email] extra))
  ∧ replyTo mail = (if truthy supplied then supplied else ostr replyToAddress)
  ∧ payloadDetails mail
    = (if String.eqb (i_providerId integration) (EmailWebhook co)
       then Some payload else None).
Proof.
  intros Hmapped. unfold createMailData.
  destruct (spread (Js.or (get (mergeOverrides command integration) "to") (VArr [])))
    as [extra|]; [|done].
  intros [= <-]. cbv zeta. unfold overrideMailData, baseMailData.
  unfold mapAttachments in Hmapped.
  destruct (truthy (prop (get (c_overrides command) "email") "replyTo")),
    (String.eqb (i_providerId integration) (EmailWebhook co));
    cbn [from id subject html attachments notificationDetails to replyTo payloadDetails
         set_replyTo set_payloadDetails baseRecipients].
  all: repeat split; try reflexivity.
  all: try (destruct (pl_attachments (c_payload command)); simplify_eq;
            by rewrite ?copyAttachment_id).
  all: exists extra; split; [reflexivity|]; cbn [app foldl].
  all: unfold filterDuplicate at 2; rewrite bool_decide_eq_false_2 by set_solver.
  all: by rewrite foldl_filterDuplicate.
Qed.

(** X15: the mail handed to the provider.  Whenever the provider is
    called, it is called once, after one successful compilation, for the
    one record the run created: the mail carries the identifier of that
    record, the compiled subject, the inlined HTML, the attachments of
    the command's payload and the notification details of the command;
    the sender is the [from] override when there is a truthy one, the
    address of the integration's credentials otherwise (or
    [no-reply@novu.co]), and is passed a second time beside the mail; the
    integration passed is the selected one with the sender name the
    compiler returned, when that is a non-empty string. *)
Theorem provider_receives (command : SendMessageCommand) (s : Store)
  (fi : IntegrationEntity) (mf : Any) (mail : MailData) :
  let r := execute co command s in
  EvCall (ProviderSend fi mf mail) ∈ trace r →
  ∃ subscriber integration message c compiled,
    getSubscriberBySubscriberId co (c_subscriberId command) (c_environmentId command)
      = Some subscriber
    ∧ getIntegration co (integrationQuery command) = Normal (Some integration)
    ∧ creates (repoCalls (trace r)) = [message]
    ∧ compiles (trace r) = [c]
    ∧ compileEmailTemplate co c = Normal compiled
    ∧ sends (trace r) = [(fi, mf, mail)]
    ∧ fi = buildFactoryIntegration integration (r_senderName compiled)
    ∧ mf = from mail
    ∧ from mail
      = Js.or (get (mergeOverrides command integration) "from")
          (VPrim (orP (cr_from (i_credentials integration)) (PStr "no-reply@novu.co")))
    ∧ id mail = Some (m__id message)
    ∧ subject mail = r_subject compiled
    ∧ inlineCss co (r_html compiled) = Normal (html mail)
    ∧ pl_attachments (c_payload command)
      = match attachments mail with
        | Some l => AttachmentArray l
        | None => NoAttachments
        end
    ∧ notificationDetails mail
      = Some {| nd_transactionId := c_transactionId command;
                nd_workflowIdentifier := c_identifier command;
                nd_subscriberId := s_subscriberId subscriber |}.
Proof.
  intros r. subst r.
  execute_cases co command s; cbn [trace app]; intros Hin; elem_inv Hin.
  all: injection Hin as -> -> ->.
  all: destruct (dispatched_mail _ _ _ _ _ _ _ _ _ payload' _ Hattachments Hmail)
         as (Hfrom & Hident & Hsubject & Hhtml & Hatt & Hnd & _).
  all: exists subscriber, integration; eexists _, _, compiled0.
  all: split; [reflexivity|]; split; [reflexivity|]; split; [reflexivity|].
  all: split; [reflexivity|]; split; [exact Hcompile|]; split; [reflexivity|].
  all: split; [reflexivity|]; split; [reflexivity|]; split; [exact Hfrom|].
  all: split; [exact Hident|]; split; [exact Hsubject|].
  all: split; [by rewrite Hhtml|]; split; [exact Hatt | exact Hnd].
Qed.

(** X16: how the mail is addressed.  Whenever the provider is called,
    the address of the run (the payload's [email] when truthy, the
    subscriber's otherwise) is truthy and is the first recipient,
    followed by the recipients of the merged [to] override it has not
    seen yet; [replyTo] is the channel override [replyTo] when truthy,
    otherwise the reply address the compiler was given, if any; and the
    compile request rides along as [payloadDetails] exactly when the
    provider is the e-mail webhook. *)
Theorem provider_addressing (command : SendMessageCommand) (s : Store)
  (fi : IntegrationEntity) (mf : Any) (mail : MailData) :
  let r := execute co command s in
  EvCall (ProviderSend fi mf mail) ∈ trace r →
  ∃ subscriber integration c extra,
    getSubscriberBySubscriberId co (c_subscriberId command) (c_environmentId command)
      = Some subscriber
    ∧ getIntegration co (integrationQuery command) = Normal (Some integration)
    ∧ compiles (trace r) = [c]
    ∧ spread (Js.or (get (mergeOverrides command integration) "to") (VArr []))
      = Some extra
    ∧ let email := orP (pl_email (c_payload command)) (s_email subscriber) in
      let supplied := prop (get (c_overrides command) "email") "replyTo" in
      truthyP email = true
      ∧ to mail = ToMany (email :: dedup_from [email] extra)
      ∧ replyTo mail
        = (if truthy supplied then supplied
           else ostr (si_reply_to_address (ip_step (cp_payload (cc_payload c)))))
      ∧ payloadDetails mail
        = (if String.eqb (i_providerId integration) (EmailWebhook co)
           then Some (cc_payload c) else None).
Proof.
  intros r. subst r.
  execute_cases co command s; cbn [trace app]; intros Hin; elem_inv Hin.
  all: injection Hin as -> -> ->.
  all: destruct (dispatched_mail _ _ _ _ _ _ _ _ _ payload' _ Hattachments Hmail)
         as (_ & _ & _ & _ & _ & _ & (extra & Hextra & Hto) & Hreply' & Hdetails).
  all: destruct (compile_request_carries _ _ _ _ _ _ _ _ _ _ _ _ _ _ _ Hprepare Hreply)
         as (Hcarried & _).
  all: exists subscriber, integration; eexists _, extra.
  all: split; [reflexivity|]; split; [reflexivity|]; split; [reflexivity|].
  all: split; [exact Hextra|]; cbv zeta; split; [exact Hemail|]; split; [exact Hto|].
  all: split; [|exact Hdetails].
  all: unfold compileCommand; cbn [cc_payload]; by rewrite Hcarried.
Qed.

End Dispatch.

(** ** The Message record *)

Section StoredRecord.

Context (co : Collaborators).

(** X17: the record a run creates.  It is created for a resolved
    subscriber and a selected integration, under the identifier the
    driver generates; it carries the address of the run (the payload's
    [email] when truthy, the subscriber's otherwise), the provider of the
    integration, the merged overrides and the command's payload: the
    same address and data, and no attachments, whatever the command's
    payload holds under [attachments]; its subject is empty and it has
    neither content nor provider identifier yet. *)
Theorem created_record (command : SendMessageCommand) (s : Store) :
  Forall
    (λ m,
       ∃ subscriber integration,
         getSubscriberBySubscriberId co (c_subscriberId command) (c_environmentId command)
           = Some subscriber
         ∧ getIntegration co (integrationQuery command) = Normal (Some integration)
         ∧ m__id m = newObjectId co (length s)
         ∧ m_email m = orP (pl_email (c_payload command)) (s_email subscriber)
         ∧ m_providerId m = i_providerId integration
         ∧ m_overrides m = mergeOverrides command integration
         ∧ pl_attachments (m_payload m) = NoAttachments
         ∧ pl_email (m_payload m) = pl_email (c_payload command)
         ∧ pl_data (m_payload m) = pl_data (c_payload command)
         ∧ m_subject m = PStr ""
         ∧ m_content m = PUndefined
         ∧ m_identifier m = PUndefined)
    (creates (repoCalls (trace (execute co command s)))).
Proof.
  execute_cases co command s; cbn; repeat constructor.
  all: exists subscriber, integration; by repeat split.
Qed.

(** X18: when content is not to be stored, the [MESSAGE_CREATED] entry
    carries no raw payload, the only update a run makes sets the provider
    identifier, and the record the run leaves has the empty subject and
    no content. *)
Theorem content_not_stored (command : SendMessageCommand) (s : Store) :
  storeContent co = false →
  let r := execute co command s in
  Forall (λ d, d_raw d = None) (withDetail MESSAGE_CREATED (audits (trace r)))
  ∧ Forall (λ u, ∃ ident, u.2 = [("identifier", ident)]) (repoUpdates (repoCalls (trace r)))
  ∧ Forall (λ m, m_subject m = PStr "" ∧ m_content m = PUndefined)
      (drop (length s) (store r)).
Proof.
  intros Hoff r. subst r.
  execute_cases co command s; try congruence; clear Hoff; code_cases.
  all: cbn [trace store].
  all: split; [entries_unfold; rewrite ?Hstore; cbn; by repeat constructor|].
  all: split; [cbn; repeat constructor; eauto|].
  all: try (rewrite drop_all; by constructor).
  all: pose proof (matches_prepared co command integration template
                     (orP (pl_email (c_payload command)) (s_email subscriber)) s) as Hm;
    cbv zeta in Hm.
  all: try (unfold BaseRepository.updateMany; rewrite fmap_app, drop_app_length';
            [|by rewrite length_fmap]; cbn [fmap list_fmap]; rewrite Hm).
  all: rewrite ?drop_app_length, ?drop_all.
  all: by repeat constructor.
Qed.

(** X19: when content is stored and the template compiles, the compiled
    subject and content are written to the record of the run, and they
    are on it when the run ends, whatever happens after the compilation:
    also when the CSS cannot be inlined or the provider fails. *)
Theorem content_stored (command : SendMessageCommand) (s : Store)
  (c : CompileEmailTemplateCommand) (compiled : CompileResult) :
  let r := execute co command s in
  compiles (trace r) = [c] →
  compileEmailTemplate co c = Normal compiled →
  storeContent co = true →
  ∃ message saved,
    creates (repoCalls (trace r)) = [message]
    ∧ RepoUpdate (messageQuery command message) (contentBody compiled)
      ∈ repoCalls (trace r)
    ∧ store r !! length s = Some saved
    ∧ m__id saved = m__id message
    ∧ m_subject saved = PStr (r_subject compiled)
    ∧ m_content saved = PStr (r_content compiled).
Proof.
  intros r. subst r.
  execute_cases co command s; cbn [trace app]; intros Hc Hok Hon; try discriminate Hc.
  all: try congruence.
  all: injection Hc as <-; try congruence.
  all: rewrite Hok in Hcompile; injection Hcompile as <-.
  all: eexists _, _; split; [reflexivity|].
  all: split; [cbn; set_solver|].
  all: cbn [store].
  all: pose proof (matches_prepared co command integration template
                     (orP (pl_email (c_payload command)) (s_email subscriber)) s) as Hm;
    cbv zeta in Hm.
  all: try (erewrite lookup_updateMany;
            [| apply lookup_updateMany; [apply lookup_created | exact Hm]
             | by rewrite matches_content ]).
  all: try (erewrite lookup_updateMany; [| apply lookup_created | exact Hm ]).
  all: by repeat split.
Qed.

(** X20: the two checks of [sendErrors] are alternatives, the address
    first: a falsy address gives the address report and entry, whether or
    not there is an integration; a truthy address and no integration give
    the integration report and entry; otherwise nothing happens.  It
    never raises and leaves the collection as it is. *)
Theorem sendErrors_alternatives (email : Prim) (integration : option IntegrationEntity)
  (message : MessageEntity) (command : SendMessageCommand) (s : Store) :
  let r := sendErrors email integration message command s in
  outcome r = Normal tt
  ∧ store r = s
  ∧ errorReports (trace r)
    = (if truthyP email
       then match integration with
            | None => [MISSING_EMAIL_INTEGRATION]
            | Some _ => []
            end
       else [SUBSCRIBER_MISSING_EMAIL])
  ∧ audits (trace r)
    = (if truthyP email
       then match integration with
            | None => [missingIntegration command message]
            | Some _ => []
            end
       else [missingAddress command message]).
Proof.
  cbv zeta. run_unfold. by destruct (truthyP email), integration.
Qed.

(** X21: [execute] never reports a missing integration through
    [sendErrors]: no run has the report [MISSING_EMAIL_INTEGRATION], and
    whenever the code [SUBSCRIBER_NO_ACTIVE_INTEGRATION] is written, it
    is by the single entry of the run, which names no message and comes
    before any record is created. *)
Theorem missing_integration_unreachable (command : SendMessageCommand) (s : Store) :
  let r := execute co command s in
  (MISSING_EMAIL_INTEGRATION ∉ errorReports (trace r))
  ∧ (withDetail SUBSCRIBER_NO_ACTIVE_INTEGRATION (audits (trace r)) = []
     ∨ (getIntegration co (integrationQuery command) = Normal None
        ∧ r = {| outcome := Normal tt; store := s;
                 trace :=
                   [EvAudit
                      (noActiveIntegration command
                         (prop (get (c_overrides command) "email")
                            "integrationIdentifier"))] |})).
Proof.
  cbv zeta. execute_cases co command s; code_cases.
  all: split; [cbn; set_solver|].
  all: first [ left; done | right; done ].
Qed.

End StoredRecord.

(** ** The layout of the compile request *)

Section CompiledLayout.

Context (co : Collaborators).

Lemma execute_prepare_layout (command : SendMessageCommand)
  (subscriber : SubscriberEntity) (integration : IntegrationEntity)
  (template : MessageTemplateEntity) (email : Prim) (s s' : Store)
  (message : MessageEntity) (overrides : gmap string Any) (payload : CompilePayload)
  (t : list Event) :
  execute_prepare co command subscriber integration template email s
    = {| outcome := Normal (message, overrides, payload); store := s'; trace := t |} →
  let supplied := get (c_overrides command) "layoutIdentifier" in
  let found :=
    if truthy supplied
    then Layout_findOne co {| lq__environmentId := c_environmentId command;
                              lq_identifier := supplied |}
    else None in
  cp_layoutId payload
  = match found with
    | Some layout => Some (l__id layout)
    | None => t__layoutId template
    end
  ∧ audits t
    = match found with
      | Some _ => []
      | None => if truthy supplied then [layoutNotFound command] else []
      end.
Proof.
  unfold execute_prepare, handleTenantExecution, sendSelectedIntegrationExecution,
    getOverrideLayoutId, BaseRepository.findOne, BaseRepository.create,
    executionLogQueueService_add, call, emit, mbind, M_bind, mret, M_ret.
  cbv zeta.
  destruct (truthy (get (c_overrides command) "layoutIdentifier"));
    [destruct (Layout_findOne co _)|]; cbn; intros [= _ _ <- _ <-]; by split.
Qed.

(** X22: the layout a run compiles with.  Whenever the compiler is
    called, the request asks for the layout the override identifier
    resolves to in the environment of the command, when one is supplied
    and found, and for the layout of the step's template otherwise; the
    run has the [LAYOUT_NOT_FOUND] entry exactly when an identifier is
    supplied and not found. *)
Theorem compiled_layout (command : SendMessageCommand) (s : Store)
  (c : CompileEmailTemplateCommand) :
  let supplied := get (c_overrides command) "layoutIdentifier" in
  let found :=
    if truthy supplied
    then Layout_findOne co {| lq__environmentId := c_environmentId command;
                              lq_identifier := supplied |}
    else None in
  let r := execute co command s in
  EvCall (Compile c) ∈ trace r →
  ∃ step template,
    c_step command = Some step
    ∧ st_template step = Some template
    ∧ cp_layoutId (cc_payload c)
      = match found with
        | Some layout => Some (l__id layout)
        | None => t__layoutId template
        end
    ∧ withDetail LAYOUT_NOT_FOUND (audits (trace r))
      = match found with
        | Some _ => []
        | None => if truthy supplied then [layoutNotFound command] else []
        end.
Proof.
  cbv zeta.
  execute_cases co command s; code_cases; cbn [trace app]; intros Hin; elem_inv Hin.
  all: injection Hin as ->.
  all: apply execute_prepare_layout in Hprepare as [Hasked Hnoted]; cbv zeta in *.
  all: exists step, template; split; [reflexivity|]; split; [exact Htemplate|].
  all: split; [unfold compileCommand; cbn [cc_payload]; by rewrite Hlayout, Hasked|].
  all: by rewrite <- Hnoted.
Qed.

End CompiledLayout.

(** ** The further properties at the fixtures *)


Lemma compilation_failure_stops_witness :
  let r := execute Fixture.coNoInline Fixture.plain [] in
  outcome r = Normal tt
  ∧ fallbacks (trace r) = [(Fixture.job, "Unclosed block")]
  ∧ sends (trace r) = [].
Proof.
  edestruct compilation_failure_stops
    with (co := Fixture.coNoInline) (command := Fixture.plain)
         (s := @nil MessageEntity) (error := ExternalError "Unclosed block")
    as (Hout & _ & Hfallback & _ & Hsends & _).
  - apply (list_elem_of_lookup_2 _ 3). reflexivity.
  - right. exists Fixture.compiled. split; reflexivity.
  - split; [exact Hout|]. split; [exact Hfallback | exact Hsends].
Defined.

Lemma provider_failure_recorded_witness :
  let r := execute Fixture.coRefused Fixture.plain [] in
  outcome r = Normal tt
  ∧ errorReports (trace r) = [MAIL_PROVIDER_DELIVERY_ERROR]
  ∧ withStatus SUCCESS (audits (trace r)) = []
  ∧ ∃ entry,
      withDetail PROVIDER_ERROR (audits (trace r)) = [entry]
      ∧ d_raw entry = Some (RawError (ExternalError "421 try later")).
Proof.
  edestruct provider_failure_recorded
    with (co := Fixture.coRefused) (command := Fixture.plain) (s := @nil MessageEntity)
         (mailHandler := λ _ : MailData,
            @Throw (option SendResult) (ExternalError "421 try later"))
         (err := ExternalError "421 try later")
    as (message & entry & stored & Hout & _ & Hone & _ & _ & _ & Hraw & Hnone
        & Hreport & _).
  - apply (list_elem_of_lookup_2 _ 6). reflexivity.
  - reflexivity.
  - reflexivity.
  - split; [exact Hout|]. split; [exact Hreport|]. split; [exact Hnone|].
    exists entry. split; [exact Hone | exact Hraw].
Defined.

Lemma provider_receives_witness :
  ∃ mail,
    sends (trace (execute Fixture.co Fixture.plain []))
    = [(Fixture.integration, str "me@x.com", mail)]
    ∧ id mail = Some "m0"
    ∧ subject mail = "Hi".
Proof.
  edestruct provider_receives
    with (co := Fixture.co) (command := Fixture.plain) (s := @nil MessageEntity)
    as (subscriber & integration & message & c & compiled & Hs & Hi & Hm & Hc & Hok
        & Hsends & _ & _ & _ & Hid & Hsubject & _).
  - apply (list_elem_of_lookup_2 _ 6). reflexivity.
  - eexists. split; [exact Hsends|].
    injection Hm as <-. injection Hok as <-.
    split; [exact Hid | exact Hsubject].
Defined.

Lemma provider_addressing_witness :
  ∃ mail,
    sends (trace (execute Fixture.co Fixture.plain []))
    = [(Fixture.integration, str "me@x.com", mail)]
    ∧ to mail = ToMany [PStr "a@x.com"]
    ∧ replyTo mail = undefined
    ∧ payloadDetails mail = None.
Proof.
  edestruct provider_addressing
    with (co := Fixture.co) (command := Fixture.plain) (s := @nil MessageEntity)
    as (subscriber & integration & c & extra & Hs & Hi & Hc & Hextra & _ & Hto
        & Hreply & Hdetails).
  - apply (list_elem_of_lookup_2 _ 6). reflexivity.
  - eexists. split; [reflexivity|].
    injection Hs as <-. injection Hi as <-. injection Hc as <-.
    injection Hextra as <-.
    split; [exact Hto|]. split; [exact Hreply | exact Hdetails].
Defined.

Lemma content_not_stored_witness :
  let r := execute Fixture.coNoStore Fixture.plain [] in
  storeContent Fixture.coNoStore = false
  ∧ Forall (λ d, d_raw d = None) (withDetail MESSAGE_CREATED (audits (trace r)))
  ∧ withDetail MESSAGE_CREATED (audits (trace r)) ≠ [].
Proof.
  destruct (content_not_stored Fixture.coNoStore Fixture.plain [] eq_refl)
    as (Hraw & _).
  split; [reflexivity|]. split; [exact Hraw | discriminate].
Defined.

Lemma content_stored_witness :
  ∃ saved,
    store (execute Fixture.co Fixture.plain []) !! 0 = Some saved
    ∧ m_subject saved = PStr "Hi"
    ∧ m_content saved = PStr "body".
Proof.
  edestruct content_stored
    with (co := Fixture.co) (command := Fixture.plain) (s := @nil MessageEntity)
         (compiled := Fixture.compiled)
    as (message & saved & _ & _ & Hsaved & _ & Hsubject & Hcontent).
  - reflexivity.
  - reflexivity.
  - reflexivity.
  - exists saved. split; [exact Hsaved|]. split; [exact Hsubject | exact Hcontent].
Defined.

Lemma compiled_layout_witness :
  ∃ c,
    compiles (trace (execute Fixture.coLayout Fixture.unknownLayout [])) = [c]
    ∧ cp_layoutId (cc_payload c) = Some "L1"
    ∧ withDetail LAYOUT_NOT_FOUND
        (audits (trace (execute Fixture.coLayout Fixture.unknownLayout []))) = [].
Proof.
  edestruct compiled_layout
    with (co := Fixture.coLayout) (command := Fixture.unknownLayout)
         (s := @nil MessageEntity)
    as (step & template & _ & _ & Hasked & Hnoted).
  - apply (list_elem_of_lookup_2 _ 3). reflexivity.
  - eexists. split; [reflexivity|]. split; [exact Hasked | exact Hnoted].
Defined.

(** ** The records already in the collection *)

Section Frame.

Context (co : Collaborators).

Lemma length_updateMany (query : MessageQuery) (body : UpdateBody) (l : Store) :
  length (BaseRepository.updateMany query body l) = length l.
Proof. apply length_fmap. Qed.

Lemma updateMany_untouched (query : MessageQuery) (body : UpdateBody) (s l : Store) :
  Forall (λ m, m__id m ≠ q__id query) s →
  BaseRepository.updateMany query body (s ++ l)
  = s ++ BaseRepository.updateMany query body l.
Proof.
  intros Hs. unfold BaseRepository.updateMany. rewrite fmap_app. f_equal.
  induction Hs as [|m s Hm _ IH]; [done|]. cbn [fmap list_fmap] in *.
  rewrite IH. unfold BaseRepository.matches.
  destruct (String.eqb_spec (m__id m) (q__id query)); [done|reflexivity].
Qed.

(** X23: when no record of the collection has the identifier the driver
    generates for the new record, a run leaves every record that was
    there as it was, in its place, and adds at most one. *)
Theorem existing_records_untouched (command : SendMessageCommand) (s : Store) :
  Forall (λ m, m__id m ≠ newObjectId co (length s)) s →
  let r := execute co command s in
  take (length s) (store r) = s
  ∧ (length (store r) ≤ S (length s))%nat.
Proof.
  intros Hfresh r. subst r.
  execute_cases co command s;
    unfold throw, executionLogQueueService_add, emit; cbn [store].
  all: try (split; [apply firstn_all | lia]).
  all: pose proof
         (Hfresh : Forall
                     (λ m, m__id m
                           ≠ q__id (messageQuery command
                                      (preparedMessage co command integration template
                                         (orP (pl_email (c_payload command))
                                            (s_email subscriber)) s))) s) as Hq.
  all: rewrite ?(updateMany_untouched _ _ _ _ Hq).
  all: rewrite take_app_length, length_app, ?length_updateMany; cbn [length].
  all: split; [reflexivity | lia].
Qed.

End Frame.

Lemma existing_records_untouched_witness :
  let old :=
    preparedMessage Fixture.co Fixture.noAddress Fixture.integration Fixture.template
      PUndefined [] in
  let r := execute Fixture.co Fixture.plain [old] in
  m__id old ≠ newObjectId Fixture.co 1
  ∧ store r !! 0 = Some old
  ∧ length (store r) = 2.
Proof.
  cbv zeta.
  assert (Hfresh :
            Forall (λ m, m__id m ≠ newObjectId Fixture.co 1)
              [preparedMessage Fixture.co Fixture.noAddress Fixture.integration
                 Fixture.template PUndefined []])
    by (repeat constructor; discriminate).
  destruct (existing_records_untouched Fixture.co Fixture.plain
              [preparedMessage Fixture.co Fixture.noAddress Fixture.integration
                 Fixture.template PUndefined []] Hfresh) as [Hkept _].
  split; [discriminate|].
  split; [|reflexivity].
  apply (f_equal (λ l, l !! 0)) in Hkept. exact Hkept.
Defined.
